(** * phono3py.cui.load: the loader of a Phono3py instance

    A shallow embedding of [src/phono3py/cui/load.py].  The file is glue
    code: [load] and its private helper [_set_force_constants] only choose
    among optional arguments and files and call into phonopy and phono3py.
    Those collaborators are not part of the file, so they are kept abstract
    here (a type class of operations), and every call the loader makes to
    one of them is recorded in a trace.  Theorems are then about which calls
    are made, in which order and with which arguments, and about the object
    handed back. *)

From Stdlib Require Import ZArith List String Bool.
Import ListNotations.
Open Scope string_scope.
Open Scope list_scope.

Set Implicit Arguments.

(** ** Data *)

(** Values whose contents the loader never inspects.  Python floats, numpy
    float arrays, cells and the simulation object stay abstract. *)
Class Domain : Type := {
  Float : Type;          (* a Python float: factor, symprec, ... *)
  FMatrix : Type;        (* a 3x3 float matrix (primitive matrix) *)
  PhonopyAtoms : Type;   (* a cell *)
  NacParams : Type;      (* the dict of Born charges, dielectric tensor, factor *)
  Ndarray : Type;        (* an array of force constants *)
  Dataset : Type;        (* a displacement-force dataset *)
  Primitive : Type;      (* the [primitive] attribute of a Phono3py object *)
  P2sMap : Type;         (* its [p2s_map] *)
  Phono3py : Type        (* the simulation object *)
}.

(** An integer matrix, as numpy's [intc] arrays are used for supercell
    matrices. *)
Definition imatrix : Type := list (list Z).

(** [supercell_matrix] and [phonon_supercell_matrix] arguments are
    array_like of shape (3,) or (3, 3). *)
Inductive array_like : Type :=
| Shape3 (d : list Z)
| Shape3x3 (m : imatrix).

(** [primitive_matrix] is a 3x3 float matrix or a string ('auto', 'F', 'I',
    'A', 'C', 'R'). *)
Inductive pmatrix {D : Domain} : Type :=
| PStr (s : string)
| PMat (m : FMatrix).

(** Exceptions a run of the file can end in: the RuntimeError the file
    raises itself (line 197), and the ValueError that the truth test of
    line 211 gets from numpy when the comparison yields an array. *)
Inductive exn : Type :=
| RuntimeError (msg : string)
| ValueError (msg : string).

(** [np.eye(n, dtype='intc', order='C')]. *)
Definition eye_row (n i : nat) : list Z :=
  map (fun j => if Nat.eqb i j then 1%Z else 0%Z) (seq 0 n).

Definition eye (n : nat) : imatrix :=
  map (eye_row n) (seq 0 n).

(** [x is None] on an optional value. *)
Definition is_None {A : Type} (x : option A) : bool :=
  match x with
  | None => true
  | Some _ => false
  end.

(** Keyword arguments of [load], with the defaults of the signature being
    [None] (or [True], [1e-5], [0]) at the caller's choice. *)
Module Args.
Record t {D : Domain} : Type := mk {
  phono3py_yaml : option string;
  supercell_matrix : option array_like;
  primitive_matrix : option pmatrix;
  phonon_supercell_matrix : option array_like;
  mesh : option (list Z);
  is_nac : bool;
  calculator : option string;
  unitcell : option PhonopyAtoms;
  supercell : option PhonopyAtoms;
  nac_params : option NacParams;
  unitcell_filename : option string;
  supercell_filename : option string;
  born_filename : option string;
  forces_fc3_filename : option string;
  forces_fc2_filename : option string;
  fc3_filename : option string;
  fc2_filename : option string;
  fc_calculator : option string;
  factor : option Float;
  frequency_scale_factor : option Float;
  is_symmetry : bool;
  is_mesh_symmetry : bool;
  symprec : Float;
  log_level : Z
}.
End Args.

(** Keyword arguments of [load_helper.get_cell_settings] as [load] passes
    them (lines 184-192). *)
Module CellSettings.
Record t {D : Domain} : Type := mk {
  supercell_matrix : option array_like;
  primitive_matrix : option pmatrix;
  unitcell : option PhonopyAtoms;
  supercell : option PhonopyAtoms;
  unitcell_filename : option string;
  supercell_filename : option string;
  calculator : option string;
  symprec : Float
}.
End CellSettings.

(** The attributes of a [Phono3pyYaml] object that [load] reads after
    [read] (lines 206-216). *)
Module Yaml.
Record t {D : Domain} : Type := mk {
  unitcell : PhonopyAtoms;
  supercell_matrix : option imatrix;
  phonon_supercell_matrix : option imatrix;
  primitive_matrix : option pmatrix;
  nac_params : option NacParams
}.
End Yaml.

(** The dict of [get_default_physical_units]; line 220 names its keys. *)
Module Units.
Record t {D : Domain} : Type := mk {
  factor : Float;
  nac_factor : Float;
  distance_to_A : Float
}.
End Units.

(** Arguments of the [Phono3py] constructor as [load] passes them (lines
    227-237): two positional ones, then keywords. *)
Module Init.
Record t {D : Domain} : Type := mk {
  unitcell : PhonopyAtoms;
  supercell_matrix : option imatrix;
  primitive_matrix : option pmatrix;
  phonon_supercell_matrix : option imatrix;
  mesh : option (list Z);
  frequency_factor_to_THz : Float;
  symprec : Float;
  is_symmetry : bool;
  is_mesh_symmetry : bool;
  calculator : option string;
  log_level : Z
}.
End Init.

(** ** External collaborators *)

(** What the file imports and calls.  Each operation is a function of its
    arguments: the contents of the files and of the current directory are
    part of the instance.  An exception raised inside a collaborator is not
    modelled, but for the one the truth test of line 211 can get from
    numpy ([matrix_eq_str]); otherwise the statements below are about runs
    in which the collaborators return. *)
Class Collaborators (D : Domain) : Type := {
  (* phonopy.cui.load_helper *)
  get_cell_settings :
    CellSettings.t -> PhonopyAtoms * option imatrix * option pmatrix;
  get_supercell_matrix : array_like -> option imatrix;
  get_nac_params :
    Primitive -> option NacParams -> option string -> bool -> Float ->
    option NacParams;
  (* phono3py.cui.phono3py_yaml: Phono3pyYaml() followed by read *)
  Phono3pyYaml_read : string -> Yaml.t;
  (* phonopy.interface.calculator *)
  get_default_physical_units : option string -> Units.t;
  (* phono3py.Phono3py: constructor, attributes, setters *)
  Phono3py_init : Init.t -> Phono3py;
  primitive : Phono3py -> Primitive;
  p2s_map : Primitive -> P2sMap;
  set_fc3 : Phono3py -> Ndarray -> Phono3py;
  set_fc2 : Phono3py -> Ndarray -> Phono3py;
  set_phph_interaction :
    Phono3py -> option NacParams -> option Float -> Phono3py;
  (* phono3py.file_IO *)
  read_fc3_from_hdf5 : string -> P2sMap -> Ndarray;
  read_fc2_from_hdf5 : string -> P2sMap -> Ndarray;
  (* os.path *)
  isfile : string -> bool;
  (* Python and numpy: the truth value of [m == s] for a matrix [m] and a
     string [s], as an [if] takes it.  Nested lists compare unequal to a
     string.  For an ndarray it depends on numpy: older versions answer
     False, from 1.25 on the comparison is an array of booleans and its
     truth test raises ValueError. *)
  matrix_eq_str : FMatrix -> string -> exn + bool;
  (* readers the helpers of phonopy rely on *)
  read_crystal_structure : string -> option string -> PhonopyAtoms;
  parse_BORN : Primitive -> string -> Float -> NacParams
}.

(** ** Effects: a trace of calls and an exception *)

Inductive event {D : Domain} : Type :=
| EvGetCellSettings (kw : CellSettings.t)
| EvGetSupercellMatrix (m : array_like)
| EvYamlRead (filename : string)
| EvGetUnits (calculator : option string)
| EvInit (kw : Init.t)
| EvGetNacParams (p : Primitive) (nac : option NacParams)
    (born_filename : option string) (is_nac : bool) (nac_factor : Float)
| EvReadFc3 (filename : string) (p2s : P2sMap)
| EvReadFc2 (filename : string) (p2s : P2sMap)
| EvSetFc3 (fc3 : Ndarray)
| EvSetFc2 (fc2 : Ndarray)
| EvSetPhph (nac : option NacParams) (frequency_scale_factor : option Float).

(** A computation yields the calls it made and then a value or the
    exception that stopped it. *)
Definition Eff {D : Domain} (A : Type) : Type := (list event * (exn + A))%type.

Definition ret {D : Domain} {A : Type} (a : A) : Eff A := ([], inr a).

Definition raise {D : Domain} {A : Type} (e : exn) : Eff A := ([], inl e).

Definition bind {D : Domain} {A B : Type} (m : Eff A) (k : A -> Eff B)
  : Eff B :=
  match m with
  | (t, inl e) => (t, inl e)
  | (t, inr a) => let (t', r) := k a in (t ++ t', r)
  end.

(** A call into a collaborator: logged, then its result. *)
Definition call {D : Domain} {A : Type} (e : event) (a : A) : Eff A :=
  ([e], inr a).

Declare Scope eff_scope.
Delimit Scope eff_scope with eff.
Notation "x <- m ;; k" := (bind m (fun x => k))
  (at level 100, m at next level, right associativity) : eff_scope.
Notation "' p <- m ;; k" := (bind m (fun p => k))
  (at level 100, p pattern, m at next level, right associativity) : eff_scope.

Definition trace {D : Domain} {A : Type} (m : Eff A) : list event := fst m.

Definition outcome {D : Domain} {A : Type} (m : Eff A) : exn + A := snd m.

(** ** The loader *)

Section Loader.
Context {D : Domain} {C : Collaborators D}.
Open Scope eff_scope.

(** [_set_force_constants] (lines 259-286).  [ph3py] is mutated in place in
    the source; here the object is threaded through. *)
Definition _set_force_constants
    (ph3py : Phono3py)
    (dataset : option Dataset)
    (fc3_filename fc2_filename : option string)
    (forces_fc3_filename forces_fc2_filename : option string)
    (fc_calculator : option string) : Eff Phono3py :=
  let p2s := p2s_map (primitive ph3py) in
  ph3py <-
    match fc3_filename with
    | Some f =>
        fc3 <- call (EvReadFc3 f p2s) (read_fc3_from_hdf5 f p2s) ;;
        call (EvSetFc3 fc3) (set_fc3 ph3py fc3)
    | None =>
        match forces_fc3_filename with
        | Some _ => ret ph3py
        | None =>
            if isfile "fc3.hdf5" then
              fc3 <- call (EvReadFc3 "fc3.hdf5" p2s)
                          (read_fc3_from_hdf5 "fc3.hdf5" p2s) ;;
              call (EvSetFc3 fc3) (set_fc3 ph3py fc3)
            else if isfile "FORCES_FC3" && isfile "disp_fc3.yaml" then
              ret ph3py
            else
              ret ph3py
        end
    end ;;
  match fc2_filename with
  | Some f =>
      fc2 <- call (EvReadFc2 f p2s) (read_fc2_from_hdf5 f p2s) ;;
      call (EvSetFc2 fc2) (set_fc2 ph3py fc2)
  | None =>
      match forces_fc2_filename with
      | Some _ => ret ph3py
      | None =>
          if isfile "fc2.hdf5" then
            fc2 <- call (EvReadFc2 "fc2.hdf5" p2s)
                        (read_fc2_from_hdf5 "fc2.hdf5" p2s) ;;
            call (EvSetFc2 fc2) (set_fc2 ph3py fc2)
          else if isfile "FORCES_FC2" && isfile "disp_fc2.yaml" then
            ret ph3py
          else
            ret ph3py
      end
  end.

(** [primitive_matrix == 'auto'] as the [if] of line 211 takes it: False
    for [None], string equality for a string, and for a matrix what Python
    and numpy make of the comparison, which may raise. *)
Definition eq_auto (p : option pmatrix) : Eff bool :=
  match p with
  | None => ret false
  | Some (PStr s) => ret (String.eqb s "auto")
  | Some (PMat m) =>
      match matrix_eq_str m "auto" with
      | inl e => raise e
      | inr b => ret b
      end
  end.

(** The message of the RuntimeError of lines 195-196. *)
Definition msg : string :=
  String.append
    "phonon_supercell_matrix can be used only when "
    "unitcell or unitcell_filename is given.".

(** [load] (lines 183-256). *)
Definition load (a : Args.t) : Eff Phono3py :=
  '(cell, smat, pmat, ph_smat, _nac_params) <-
    match Args.phono3py_yaml a with
    | None =>
        let kw :=
          {| CellSettings.supercell_matrix := Args.supercell_matrix a;
             CellSettings.primitive_matrix := Args.primitive_matrix a;
             CellSettings.unitcell := Args.unitcell a;
             CellSettings.supercell := Args.supercell a;
             CellSettings.unitcell_filename := Args.unitcell_filename a;
             CellSettings.supercell_filename := Args.supercell_filename a;
             CellSettings.calculator := Args.calculator a;
             CellSettings.symprec := Args.symprec a |} in
        '(cell, smat, pmat) <-
          call (EvGetCellSettings kw) (get_cell_settings kw) ;;
        ph_smat <-
          match Args.phonon_supercell_matrix a with
          | Some m =>
              if is_None (Args.unitcell a)
                 && is_None (Args.unitcell_filename a)
              then raise (RuntimeError msg)
              else call (EvGetSupercellMatrix m) (get_supercell_matrix m)
          | None => ret None
          end ;;
        ret (cell, smat, pmat, ph_smat, Args.nac_params a)
    | Some filename =>
        ph3py_yaml <- call (EvYamlRead filename) (Phono3pyYaml_read filename) ;;
        let cell := Yaml.unitcell ph3py_yaml in
        let smat := Yaml.supercell_matrix ph3py_yaml in
        let ph_smat := Yaml.phonon_supercell_matrix ph3py_yaml in
        let smat :=
          match smat with
          | None => Some (eye 3)
          | Some m => Some m
          end in
        is_auto <- eq_auto (Args.primitive_matrix a) ;;
        let pmat :=
          if is_auto
          then Some (PStr "auto")
          else Yaml.primitive_matrix ph3py_yaml in
        let _nac_params :=
          if Args.is_nac a then Yaml.nac_params ph3py_yaml else None in
        ret (cell, smat, pmat, ph_smat, _nac_params)
    end ;;
  units <-
    call (EvGetUnits (Args.calculator a))
         (get_default_physical_units (Args.calculator a)) ;;
  let _factor :=
    match Args.factor a with
    | None => Units.factor units
    | Some f => f
    end in
  let kw :=
    {| Init.unitcell := cell;
       Init.supercell_matrix := smat;
       Init.primitive_matrix := pmat;
       Init.phonon_supercell_matrix := ph_smat;
       Init.mesh := Args.mesh a;
       Init.frequency_factor_to_THz := _factor;
       Init.symprec := Args.symprec a;
       Init.is_symmetry := Args.is_symmetry a;
       Init.is_mesh_symmetry := Args.is_mesh_symmetry a;
       Init.calculator := Args.calculator a;
       Init.log_level := Args.log_level a |} in
  ph3py <- call (EvInit kw) (Phono3py_init kw) ;;
  _nac_params <-
    call (EvGetNacParams (primitive ph3py) _nac_params
            (Args.born_filename a) (Args.is_nac a) (Units.nac_factor units))
         (get_nac_params (primitive ph3py) _nac_params
            (Args.born_filename a) (Args.is_nac a) (Units.nac_factor units)) ;;
  ph3py <-
    _set_force_constants ph3py None
      (Args.fc3_filename a) (Args.fc2_filename a)
      (Args.forces_fc3_filename a) (Args.forces_fc2_filename a)
      (Args.fc_calculator a) ;;
  ph3py <-
    match Args.mesh a with
    | Some _ =>
        call (EvSetPhph _nac_params (Args.frequency_scale_factor a))
             (set_phph_interaction ph3py _nac_params
                (Args.frequency_scale_factor a))
    | None => ret ph3py
    end ;;
  ret ph3py.

End Loader.

(** ** Vocabulary for the statements *)

Section Vocabulary.
Context {D : Domain} {C : Collaborators D}.

(** The constructor calls of a trace, in order. *)
Fixpoint inits (t : list event) : list Init.t :=
  match t with
  | [] => []
  | EvInit kw :: t' => kw :: inits t'
  | _ :: t' => inits t'
  end.

(** The events that act on the Phono3py object through its setters. *)
Definition is_setter (e : event) : bool :=
  match e with
  | EvSetFc3 _ | EvSetFc2 _ | EvSetPhph _ _ => true
  | _ => false
  end.

(** Constructor and setter calls of a trace, in order. *)
Definition object_calls (t : list event) : list event :=
  filter (fun e => match e with EvInit _ => true | _ => is_setter e end) t.

(** The object after the setter calls of [t] were made on [ph]. *)
Fixpoint apply_setters (t : list event) (ph : Phono3py) : Phono3py :=
  match t with
  | [] => ph
  | EvSetFc3 v :: t' => apply_setters t' (set_fc3 ph v)
  | EvSetFc2 v :: t' => apply_setters t' (set_fc2 ph v)
  | EvSetPhph n f :: t' => apply_setters t' (set_phph_interaction ph n f)
  | _ :: t' => apply_setters t' ph
  end.

(** Which file [_set_force_constants] hands to the hdf5 reader of one
    order, if any: the explicit file name; else none when a forces file
    name is given; else the default name when that file exists. *)
Definition hdf5_source (default : string)
    (fc_filename forces_filename : option string) : option string :=
  match fc_filename, forces_filename with
  | Some f, _ => Some f
  | None, Some _ => None
  | None, None => if isfile default then Some default else None
  end.

(** The four sources a cell can come from among the arguments of [load]. *)
Inductive cell_source : Type :=
| FromUnitcellFilename (f : string)
| FromSupercellFilename (f : string)
| FromUnitcell (c : PhonopyAtoms)
| FromSupercell (c : PhonopyAtoms).

(** Modelled from the spec: [load_helper.get_cell_settings] is phonopy
    code and is not under src/.  The spec gives its choice of the cell as
    the priority unitcell_filename > supercell_filename > unitcell >
    supercell.  With none of the four given the helper turns to a default
    file of the calculator, which the spec does not describe: no source is
    named in that case. *)
Definition cell_priority
    (unitcell_filename supercell_filename : option string)
    (unitcell supercell : option PhonopyAtoms) : option cell_source :=
  match unitcell_filename, supercell_filename, unitcell, supercell with
  | Some f, _, _, _ => Some (FromUnitcellFilename f)
  | None, Some f, _, _ => Some (FromSupercellFilename f)
  | None, None, Some c, _ => Some (FromUnitcell c)
  | None, None, None, Some c => Some (FromSupercell c)
  | None, None, None, None => None
  end.

(** The cell a source stands for: a file is read with the structure reader
    of the calculator, a cell given in memory is itself. *)
Definition cell_of_source (calculator : option string) (s : cell_source)
  : PhonopyAtoms :=
  match s with
  | FromUnitcellFilename f => read_crystal_structure f calculator
  | FromSupercellFilename f => read_crystal_structure f calculator
  | FromUnitcell c => c
  | FromSupercell c => c
  end.

(** The helper of this instance chooses the cell as the spec says. *)
Definition cell_helper_follows_spec : Prop :=
  forall kw s,
    cell_priority (CellSettings.unitcell_filename kw)
      (CellSettings.supercell_filename kw)
      (CellSettings.unitcell kw) (CellSettings.supercell kw) = Some s ->
    fst (fst (get_cell_settings kw))
    = cell_of_source (CellSettings.calculator kw) s.

(** Modelled from the spec: [load_helper.get_nac_params] is phonopy code
    and is not under src/.  The spec gives the priority nac_params >
    born_filename > is_nac: parameters that are given are used; else the
    file named by born_filename is read; else the default file 'BORN' is
    read when is_nac is True, and NAC is off ([None]) when it is False. *)
Definition get_nac_params_spec
    (p : Primitive) (nac_params : option NacParams)
    (born_filename : option string) (is_nac : bool) (nac_factor : Float)
  : option NacParams :=
  match nac_params with
  | Some n => Some n
  | None =>
      match born_filename with
      | Some f => Some (parse_BORN p f nac_factor)
      | None =>
          if is_nac then Some (parse_BORN p "BORN" nac_factor) else None
      end
  end.

(** The helper of this instance resolves NAC as the spec says. *)
Definition nac_helper_follows_spec : Prop :=
  forall p n b i f, get_nac_params p n b i f = get_nac_params_spec p n b i f.

(** What [load] gives the NAC helper as its [nac_params]: the argument
    when no phono3py.yaml is named; with one, what the file holds if is_nac
    is True and [None] otherwise (lines 202, 215-218). *)
Definition nac_params_given (a : Args.t) : option NacParams :=
  match Args.phono3py_yaml a with
  | None => Args.nac_params a
  | Some filename =>
      if Args.is_nac a
      then Yaml.nac_params (Phono3pyYaml_read filename)
      else None
  end.

(** The same collaborators with another NAC helper. *)
Definition with_get_nac_params
    (g : Primitive -> option NacParams -> option string -> bool -> Float ->
         option NacParams) : Collaborators D :=
  {| get_cell_settings := get_cell_settings;
     get_supercell_matrix := get_supercell_matrix;
     get_nac_params := g;
     Phono3pyYaml_read := Phono3pyYaml_read;
     get_default_physical_units := get_default_physical_units;
     Phono3py_init := Phono3py_init;
     primitive := primitive;
     p2s_map := p2s_map;
     set_fc3 := set_fc3;
     set_fc2 := set_fc2;
     set_phph_interaction := set_phph_interaction;
     read_fc3_from_hdf5 := read_fc3_from_hdf5;
     read_fc2_from_hdf5 := read_fc2_from_hdf5;
     isfile := isfile;
     matrix_eq_str := matrix_eq_str;
     read_crystal_structure := read_crystal_structure;
     parse_BORN := parse_BORN |}.

(** The same arguments with other NAC inputs and another
    frequency_scale_factor. *)
Definition with_nac_inputs (a : Args.t)
    (is_nac : bool) (nac_params : option NacParams)
    (born_filename : option string) (frequency_scale_factor : option Float)
  : Args.t :=
  {| Args.phono3py_yaml := Args.phono3py_yaml a;
     Args.supercell_matrix := Args.supercell_matrix a;
     Args.primitive_matrix := Args.primitive_matrix a;
     Args.phonon_supercell_matrix := Args.phonon_supercell_matrix a;
     Args.mesh := Args.mesh a;
     Args.is_nac := is_nac;
     Args.calculator := Args.calculator a;
     Args.unitcell := Args.unitcell a;
     Args.supercell := Args.supercell a;
     Args.nac_params := nac_params;
     Args.unitcell_filename := Args.unitcell_filename a;
     Args.supercell_filename := Args.supercell_filename a;
     Args.born_filename := born_filename;
     Args.forces_fc3_filename := Args.forces_fc3_filename a;
     Args.forces_fc2_filename := Args.forces_fc2_filename a;
     Args.fc3_filename := Args.fc3_filename a;
     Args.fc2_filename := Args.fc2_filename a;
     Args.fc_calculator := Args.fc_calculator a;
     Args.factor := Args.factor a;
     Args.frequency_scale_factor := frequency_scale_factor;
     Args.is_symmetry := Args.is_symmetry a;
     Args.is_mesh_symmetry := Args.is_mesh_symmetry a;
     Args.symprec := Args.symprec a;
     Args.log_level := Args.log_level a |}.

End Vocabulary.

(** ** A small instance to run the loader on *)

(** Every opaque value is a number; the object remembers the cell and the
    frequency factor it was built from and what its setters received. *)
Module Toy.

Record obj : Type := mk_obj {
  cell : nat;
  freq_factor : nat;
  fc3 : option nat;
  fc2 : option nat;
  phph : option (option nat * option nat)
}.

#[local] Instance D : Domain :=
  {| Float := nat; FMatrix := nat; PhonopyAtoms := nat; NacParams := nat;
     Ndarray := nat; Dataset := nat; Primitive := nat; P2sMap := nat;
     Phono3py := obj |}.

(** A file holds the cell numbered by the length of its name. *)
Definition read_cell (f : string) (calculator : option string) : nat :=
  String.length f.

Definition cell_settings (kw : CellSettings.t)
  : nat * option imatrix * option pmatrix :=
  let c :=
    match CellSettings.unitcell_filename kw,
          CellSettings.supercell_filename kw,
          CellSettings.unitcell kw, CellSettings.supercell kw with
    | Some f, _, _, _ => read_cell f (CellSettings.calculator kw)
    | None, Some f, _, _ => read_cell f (CellSettings.calculator kw)
    | None, None, Some c, _ => c
    | None, None, None, Some c => c
    | None, None, None, None => O
    end in
  (c, None, CellSettings.primitive_matrix kw).

Definition supercell_matrix_of (m : array_like) : option imatrix :=
  match m with
  | Shape3 [a; b; c] => Some [[a; 0; 0]; [0; b; 0]; [0; 0; c]]%Z
  | Shape3 _ => None
  | Shape3x3 m => Some m
  end.

Definition born (p : nat) (f : string) (nac_factor : nat) : nat :=
  String.length f + nac_factor.

Definition nac_helper (p : nat) (n : option nat) (b : option string)
    (i : bool) (f : nat) : option nat :=
  match n with
  | Some n => Some n
  | None =>
      match b with
      | Some file => Some (born p file f)
      | None => if i then Some (born p "BORN" f) else None
      end
  end.

(** A phono3py.yaml with a cell and NAC parameters but no matrices. *)
Definition yaml (filename : string) : Yaml.t :=
  {| Yaml.unitcell := 7%nat;
     Yaml.supercell_matrix := None;
     Yaml.phonon_supercell_matrix := None;
     Yaml.primitive_matrix := Some (PMat 3%nat);
     Yaml.nac_params := Some 9%nat |}.

Definition units (calculator : option string) : Units.t :=
  {| Units.factor := 15%nat; Units.nac_factor := 14%nat;
     Units.distance_to_A := 1%nat |}.

Definition init (kw : Init.t) : obj :=
  {| cell := Init.unitcell kw;
     freq_factor := Init.frequency_factor_to_THz kw;
     fc3 := None; fc2 := None; phph := None |}.

Definition assign_fc3 (ph : obj) (v : nat) : obj :=
  {| cell := cell ph; freq_factor := freq_factor ph;
     fc3 := Some v; fc2 := fc2 ph; phph := phph ph |}.

Definition assign_fc2 (ph : obj) (v : nat) : obj :=
  {| cell := cell ph; freq_factor := freq_factor ph;
     fc3 := fc3 ph; fc2 := Some v; phph := phph ph |}.

Definition interaction (ph : obj) (n : option nat) (f : option nat) : obj :=
  {| cell := cell ph; freq_factor := freq_factor ph;
     fc3 := fc3 ph; fc2 := fc2 ph; phph := Some (n, f) |}.

(** The current directory holds fc3.hdf5 and the two files of raw second
    order forces, and nothing else of interest. *)
Definition files : list string :=
  ["fc3.hdf5"; "FORCES_FC2"; "disp_fc2.yaml"].

Definition exists_file (name : string) : bool :=
  existsb (String.eqb name) files.

(** Matrices numbered below 100 are nested lists; the others are ndarrays
    under a numpy whose truth test of an array raises. *)
Definition ambiguous : string :=
  "The truth value of an array with more than one element is ambiguous.".

Definition matrix_eq (m : nat) (s : string) : exn + bool :=
  if Nat.ltb m 100 then inr false else inl (ValueError ambiguous).

#[local] Instance C : Collaborators D :=
  {| get_cell_settings := cell_settings;
     get_supercell_matrix := supercell_matrix_of;
     get_nac_params := nac_helper;
     Phono3pyYaml_read := yaml;
     get_default_physical_units := units;
     Phono3py_init := init;
     primitive := cell;
     p2s_map := fun p : nat => p;
     set_fc3 := assign_fc3;
     set_fc2 := assign_fc2;
     set_phph_interaction := interaction;
     read_fc3_from_hdf5 := fun f _ => (String.length f + 100)%nat;
     read_fc2_from_hdf5 := fun f _ => (String.length f + 200)%nat;
     isfile := exists_file;
     matrix_eq_str := matrix_eq;
     read_crystal_structure := read_cell;
     parse_BORN := born |}.

(** [load()] with every argument at its default, but for the three that
    the examples vary and the cell, which is given in memory. *)
Definition args (phono3py_yaml : option string)
    (phonon_supercell_matrix : option array_like)
    (mesh : option (list Z)) (unitcell : option nat)
    (nac_params : option nat) : Args.t :=
  {| Args.phono3py_yaml := phono3py_yaml;
     Args.supercell_matrix := None;
     Args.primitive_matrix := None;
     Args.phonon_supercell_matrix := phonon_supercell_matrix;
     Args.mesh := mesh;
     Args.is_nac := true;
     Args.calculator := None;
     Args.unitcell := unitcell;
     Args.supercell := None;
     Args.nac_params := nac_params;
     Args.unitcell_filename := None;
     Args.supercell_filename := None;
     Args.born_filename := None;
     Args.forces_fc3_filename := None;
     Args.forces_fc2_filename := None;
     Args.fc3_filename := None;
     Args.fc2_filename := None;
     Args.fc_calculator := None;
     Args.factor := None;
     Args.frequency_scale_factor := None;
     Args.is_symmetry := true;
     Args.is_mesh_symmetry := true;
     Args.symprec := 0%nat;
     Args.log_level := 0%Z |}.

(** [load(unitcell=5, mesh=[2, 2, 2])]. *)
Definition from_cell : Args.t :=
  args None None (Some [2; 2; 2]%Z) (Some 5%nat) None.

(** [load("phono3py.yaml", mesh=[2, 2, 2], unitcell=5, nac_params=1)]. *)
Definition from_yaml : Args.t :=
  args (Some "phono3py.yaml") None (Some [2; 2; 2]%Z) (Some 5%nat)
       (Some 1%nat).

(** [load(phonon_supercell_matrix=[2, 2, 2], mesh=[2, 2, 2])]: neither
    unitcell nor unitcell_filename. *)
Definition without_unitcell : Args.t :=
  args None (Some (Shape3 [2; 2; 2]%Z)) (Some [2; 2; 2]%Z) None None.

(** [load(unitcell=5)]: no mesh. *)
Definition without_mesh : Args.t :=
  args None None None (Some 5%nat) None.

Definition loaded_without_mesh : obj :=
  {| cell := 5; freq_factor := 15; fc3 := Some 108%nat; fc2 := None;
     phph := None |}.

(** What [load] returns on [from_cell] and on [from_yaml]. *)
Definition loaded_from_cell : obj :=
  {| cell := 5; freq_factor := 15; fc3 := Some 108%nat; fc2 := None;
     phph := Some (Some 18%nat, None) |}.

Definition loaded_from_yaml : obj :=
  {| cell := 7; freq_factor := 15; fc3 := Some 108%nat; fc2 := None;
     phph := Some (Some 9%nat, None) |}.

(** [load(unitcell=5, forces_fc3_filename="FORCES_FC3")]: fc3.hdf5 is in
    the directory. *)
Definition with_forces : Args.t :=
  {| Args.phono3py_yaml := None;
     Args.supercell_matrix := None;
     Args.primitive_matrix := None;
     Args.phonon_supercell_matrix := None;
     Args.mesh := None;
     Args.is_nac := true;
     Args.calculator := None;
     Args.unitcell := Some 5%nat;
     Args.supercell := None;
     Args.nac_params := None;
     Args.unitcell_filename := None;
     Args.supercell_filename := None;
     Args.born_filename := None;
     Args.forces_fc3_filename := Some "FORCES_FC3";
     Args.forces_fc2_filename := None;
     Args.fc3_filename := None;
     Args.fc2_filename := None;
     Args.fc_calculator := None;
     Args.factor := None;
     Args.frequency_scale_factor := None;
     Args.is_symmetry := true;
     Args.is_mesh_symmetry := true;
     Args.symprec := 0%nat;
     Args.log_level := 0%Z |}.

(** A freshly built object on cell 5. *)
Definition fresh : obj :=
  {| cell := 5; freq_factor := 15; fc3 := None; fc2 := None;
     phph := None |}.

(** Another directory: fc3.hdf5 again, and the raw third-order forces
    instead of the second-order ones. *)
Definition other_directory (name : string) : bool :=
  existsb (String.eqb name) ["fc3.hdf5"; "FORCES_FC3"; "disp_fc3.yaml"].

End Toy.

(** ** The loader in closed form *)

Section ClosedForm.
Context {D : Domain} {C : Collaborators D}.

(** The calls made for third-order force constants when the hdf5 file
    [src] (if any) is the chosen source. *)
Definition fc3_calls (p2s : P2sMap) (src : option string) : list event :=
  match src with
  | Some f => [EvReadFc3 f p2s; EvSetFc3 (read_fc3_from_hdf5 f p2s)]
  | None => []
  end.

Definition fc2_calls (p2s : P2sMap) (src : option string) : list event :=
  match src with
  | Some f => [EvReadFc2 f p2s; EvSetFc2 (read_fc2_from_hdf5 f p2s)]
  | None => []
  end.

(** The keyword arguments of lines 185-192. *)
Definition cell_settings_kwargs (a : Args.t) : CellSettings.t :=
  {| CellSettings.supercell_matrix := Args.supercell_matrix a;
     CellSettings.primitive_matrix := Args.primitive_matrix a;
     CellSettings.unitcell := Args.unitcell a;
     CellSettings.supercell := Args.supercell a;
     CellSettings.unitcell_filename := Args.unitcell_filename a;
     CellSettings.supercell_filename := Args.supercell_filename a;
     CellSettings.calculator := Args.calculator a;
     CellSettings.symprec := Args.symprec a |}.

(** The constructor arguments of lines 227-237, from a resolved cell and
    resolved matrices. *)
Definition init_kwargs (a : Args.t) (cell : PhonopyAtoms)
    (smat : option imatrix) (pmat : option pmatrix)
    (ph_smat : option imatrix) : Init.t :=
  {| Init.unitcell := cell;
     Init.supercell_matrix := smat;
     Init.primitive_matrix := pmat;
     Init.phonon_supercell_matrix := ph_smat;
     Init.mesh := Args.mesh a;
     Init.frequency_factor_to_THz :=
       match Args.factor a with
       | None =>
           Units.factor (get_default_physical_units (Args.calculator a))
       | Some f => f
       end;
     Init.symprec := Args.symprec a;
     Init.is_symmetry := Args.is_symmetry a;
     Init.is_mesh_symmetry := Args.is_mesh_symmetry a;
     Init.calculator := Args.calculator a;
     Init.log_level := Args.log_level a |}.

(** The answer of the comparison of line 211 when it gives one. *)
Definition compares_auto (p : option pmatrix) : bool :=
  match outcome (eq_auto p) with
  | inr b => b
  | inl _ => false
  end.

(** Constructor arguments when a phono3py.yaml is named (lines 206-214). *)
Definition yaml_kwargs (a : Args.t) (y : Yaml.t) : Init.t :=
  init_kwargs a (Yaml.unitcell y)
    (match Yaml.supercell_matrix y with
     | None => Some (eye 3)
     | Some m => Some m
     end)
    (if compares_auto (Args.primitive_matrix a)
     then Some (PStr "auto")
     else Yaml.primitive_matrix y)
    (Yaml.phonon_supercell_matrix y).

(** Constructor arguments when none is named (lines 184-200). *)
Definition args_kwargs (a : Args.t) : Init.t :=
  let '(cell, smat, pmat) := get_cell_settings (cell_settings_kwargs a) in
  init_kwargs a cell smat pmat
    (match Args.phonon_supercell_matrix a with
     | Some m => get_supercell_matrix m
     | None => None
     end).

(** The NAC parameters the helper returns at line 238. *)
Definition resolved_nac (a : Args.t) (kw : Init.t) : option NacParams :=
  get_nac_params (primitive (Phono3py_init kw)) (nac_params_given a)
    (Args.born_filename a) (Args.is_nac a)
    (Units.nac_factor (get_default_physical_units (Args.calculator a))).

(** The calls of lines 221-254, made once [kw] is resolved. *)
Definition calls_after (a : Args.t) (kw : Init.t) : list event :=
  let ph := Phono3py_init kw in
  [EvGetUnits (Args.calculator a);
   EvInit kw;
   EvGetNacParams (primitive ph) (nac_params_given a)
     (Args.born_filename a) (Args.is_nac a)
     (Units.nac_factor (get_default_physical_units (Args.calculator a)))]
  ++ (fc3_calls (p2s_map (primitive ph))
        (hdf5_source "fc3.hdf5" (Args.fc3_filename a)
           (Args.forces_fc3_filename a))
      ++ fc2_calls (p2s_map (primitive ph))
           (hdf5_source "fc2.hdf5" (Args.fc2_filename a)
              (Args.forces_fc2_filename a)))
  ++ match Args.mesh a with
     | Some _ =>
         [EvSetPhph (resolved_nac a kw) (Args.frequency_scale_factor a)]
     | None => []
     end.

(** The guard of lines 193-194 fires. *)
Definition guard_fails (a : Args.t) : bool :=
  is_None (Args.phono3py_yaml a)
  && negb (is_None (Args.phonon_supercell_matrix a))
  && is_None (Args.unitcell a)
  && is_None (Args.unitcell_filename a).

(** The exception a run ends in before the units are looked up, if any:
    the RuntimeError of the guard, or with a phono3py.yaml what the
    comparison of line 211 raises. *)
Definition raises (a : Args.t) : option exn :=
  if guard_fails a then Some (RuntimeError msg)
  else
    match Args.phono3py_yaml a with
    | Some _ =>
        match outcome (eq_auto (Args.primitive_matrix a)) with
        | inl e => Some e
        | inr _ => None
        end
    | None => None
    end.

(** The constructor arguments of a run that gets that far. *)
Definition resolved_kwargs (a : Args.t) : Init.t :=
  match Args.phono3py_yaml a with
  | Some filename => yaml_kwargs a (Phono3pyYaml_read filename)
  | None => args_kwargs a
  end.

(** The calls of lines 183-218, made while cell and matrices are
    resolved. *)
Definition resolution_calls (a : Args.t) : list event :=
  match Args.phono3py_yaml a with
  | Some filename => [EvYamlRead filename]
  | None =>
      EvGetCellSettings (cell_settings_kwargs a)
      :: match Args.phonon_supercell_matrix a with
         | Some m => if guard_fails a then [] else [EvGetSupercellMatrix m]
         | None => []
         end
  end.

End ClosedForm.

(** ** Variations of a call *)

Section Variations.
Context {D : Domain} {C : Collaborators D}.

(** The same collaborators in another current directory. *)
Definition with_isfile (g : string -> bool) : Collaborators D :=
  {| get_cell_settings := get_cell_settings;
     get_supercell_matrix := get_supercell_matrix;
     get_nac_params := get_nac_params;
     Phono3pyYaml_read := Phono3pyYaml_read;
     get_default_physical_units := get_default_physical_units;
     Phono3py_init := Phono3py_init;
     primitive := primitive;
     p2s_map := p2s_map;
     set_fc3 := set_fc3;
     set_fc2 := set_fc2;
     set_phph_interaction := set_phph_interaction;
     read_fc3_from_hdf5 := read_fc3_from_hdf5;
     read_fc2_from_hdf5 := read_fc2_from_hdf5;
     isfile := g;
     matrix_eq_str := matrix_eq_str;
     read_crystal_structure := read_crystal_structure;
     parse_BORN := parse_BORN |}.

(** The same arguments with other raw-forces file names and another
    fc_calculator. *)
Definition with_forces_inputs (a : Args.t)
    (forces_fc3_filename : option string)
    (forces_fc2_filename : option string)
    (fc_calculator : option string)
  : Args.t :=
  {| Args.phono3py_yaml := Args.phono3py_yaml a;
     Args.supercell_matrix := Args.supercell_matrix a;
     Args.primitive_matrix := Args.primitive_matrix a;
     Args.phonon_supercell_matrix := Args.phonon_supercell_matrix a;
     Args.mesh := Args.mesh a;
     Args.is_nac := Args.is_nac a;
     Args.calculator := Args.calculator a;
     Args.unitcell := Args.unitcell a;
     Args.supercell := Args.supercell a;
     Args.nac_params := Args.nac_params a;
     Args.unitcell_filename := Args.unitcell_filename a;
     Args.supercell_filename := Args.supercell_filename a;
     Args.born_filename := Args.born_filename a;
     Args.forces_fc3_filename := forces_fc3_filename;
     Args.forces_fc2_filename := forces_fc2_filename;
     Args.fc3_filename := Args.fc3_filename a;
     Args.fc2_filename := Args.fc2_filename a;
     Args.fc_calculator := fc_calculator;
     Args.factor := Args.factor a;
     Args.frequency_scale_factor := Args.frequency_scale_factor a;
     Args.is_symmetry := Args.is_symmetry a;
     Args.is_mesh_symmetry := Args.is_mesh_symmetry a;
     Args.symprec := Args.symprec a;
     Args.log_level := Args.log_level a |}.

(** The same arguments with other cell inputs, matrices and NAC
    parameters. *)
Definition with_cell_inputs (a : Args.t)
    (supercell_matrix : option array_like)
    (phonon_supercell_matrix : option array_like)
    (unitcell : option PhonopyAtoms)
    (supercell : option PhonopyAtoms)
    (nac_params : option NacParams)
    (unitcell_filename : option string)
    (supercell_filename : option string)
  : Args.t :=
  {| Args.phono3py_yaml := Args.phono3py_yaml a;
     Args.supercell_matrix := supercell_matrix;
     Args.primitive_matrix := Args.primitive_matrix a;
     Args.phonon_supercell_matrix := phonon_supercell_matrix;
     Args.mesh := Args.mesh a;
     Args.is_nac := Args.is_nac a;
     Args.calculator := Args.calculator a;
     Args.unitcell := unitcell;
     Args.supercell := supercell;
     Args.nac_params := nac_params;
     Args.unitcell_filename := unitcell_filename;
     Args.supercell_filename := supercell_filename;
     Args.born_filename := Args.born_filename a;
     Args.forces_fc3_filename := Args.forces_fc3_filename a;
     Args.forces_fc2_filename := Args.forces_fc2_filename a;
     Args.fc3_filename := Args.fc3_filename a;
     Args.fc2_filename := Args.fc2_filename a;
     Args.fc_calculator := Args.fc_calculator a;
     Args.factor := Args.factor a;
     Args.frequency_scale_factor := Args.frequency_scale_factor a;
     Args.is_symmetry := Args.is_symmetry a;
     Args.is_mesh_symmetry := Args.is_mesh_symmetry a;
     Args.symprec := Args.symprec a;
     Args.log_level := Args.log_level a |}.

(** The same arguments with another primitive_matrix. *)
Definition with_primitive_matrix (a : Args.t)
    (primitive_matrix : option pmatrix)
  : Args.t :=
  {| Args.phono3py_yaml := Args.phono3py_yaml a;
     Args.supercell_matrix := Args.supercell_matrix a;
     Args.primitive_matrix := primitive_matrix;
     Args.phonon_supercell_matrix := Args.phonon_supercell_matrix a;
     Args.mesh := Args.mesh a;
     Args.is_nac := Args.is_nac a;
     Args.calculator := Args.calculator a;
     Args.unitcell := Args.unitcell a;
     Args.supercell := Args.supercell a;
     Args.nac_params := Args.nac_params a;
     Args.unitcell_filename := Args.unitcell_filename a;
     Args.supercell_filename := Args.supercell_filename a;
     Args.born_filename := Args.born_filename a;
     Args.forces_fc3_filename := Args.forces_fc3_filename a;
     Args.forces_fc2_filename := Args.forces_fc2_filename a;
     Args.fc3_filename := Args.fc3_filename a;
     Args.fc2_filename := Args.fc2_filename a;
     Args.fc_calculator := Args.fc_calculator a;
     Args.factor := Args.factor a;
     Args.frequency_scale_factor := Args.frequency_scale_factor a;
     Args.is_symmetry := Args.is_symmetry a;
     Args.is_mesh_symmetry := Args.is_mesh_symmetry a;
     Args.symprec := Args.symprec a;
     Args.log_level := Args.log_level a |}.

(** The arguments of the calls to the NAC helper, in order. *)
Fixpoint nac_calls (t : list event) : list event :=
  match t with
  | [] => []
  | EvGetNacParams p n b i f :: t' => EvGetNacParams p n b i f :: nac_calls t'
  | _ :: t' => nac_calls t'
  end.

End Variations.

(** ** Lemmas on traces *)

Unset Implicit Arguments.

Section TraceLemmas.
Context {D : Domain} {C : Collaborators D}.

Lemma inits_app (t1 t2 : list event) :
  inits (t1 ++ t2) = inits t1 ++ inits t2.
Proof.
  induction t1 as [|e t1 IH]; simpl; [reflexivity|].
  destruct e; simpl; rewrite IH; reflexivity.
Qed.

Lemma apply_setters_app (t1 t2 : list event) (ph : Phono3py) :
  apply_setters (t1 ++ t2) ph = apply_setters t2 (apply_setters t1 ph).
Proof.
  revert ph; induction t1 as [|e t1 IH]; intros ph; simpl; [reflexivity|].
  destruct e; apply IH.
Qed.

Lemma set_force_constants_eq ph ds f3 f2 ff3 ff2 fcc :
  _set_force_constants ph ds f3 f2 ff3 ff2 fcc
  = (fc3_calls (p2s_map (primitive ph)) (hdf5_source "fc3.hdf5" f3 ff3)
     ++ fc2_calls (p2s_map (primitive ph)) (hdf5_source "fc2.hdf5" f2 ff2),
     inr (apply_setters
            (fc3_calls (p2s_map (primitive ph))
               (hdf5_source "fc3.hdf5" f3 ff3)
             ++ fc2_calls (p2s_map (primitive ph))
                  (hdf5_source "fc2.hdf5" f2 ff2)) ph)).
Proof.
  unfold _set_force_constants, hdf5_source, bind, call, ret.
  destruct f3 as [n3|]; [|destruct ff3 as [m3|];
    [|destruct (isfile "fc3.hdf5");
      [|destruct (isfile "FORCES_FC3" && isfile "disp_fc3.yaml")]]];
  (destruct f2 as [n2|]; [|destruct ff2 as [m2|];
    [|destruct (isfile "fc2.hdf5");
      [|destruct (isfile "FORCES_FC2" && isfile "disp_fc2.yaml")]]]);
  reflexivity.
Qed.

(** After the resolution of cell and matrices every run goes the same
    way. *)
Ltac run_tail a :=
  unfold bind, call, ret, raise; cbv beta iota;
  rewrite set_force_constants_eq; cbv beta iota;
  unfold calls_after, resolved_nac, nac_params_given;
  destruct (Args.mesh a);
  repeat (rewrite ?apply_setters_app; simpl).

(** The comparison of line 211 makes no call. *)
Lemma eq_auto_eq (p : option pmatrix) :
  eq_auto p = ([], outcome (eq_auto p)).
Proof.
  destruct p as [[s|m]|]; try reflexivity.
  unfold eq_auto. destruct (matrix_eq_str m "auto"); reflexivity.
Qed.

Lemma load_yaml a filename is_auto :
  Args.phono3py_yaml a = Some filename ->
  outcome (eq_auto (Args.primitive_matrix a)) = inr is_auto ->
  let kw := yaml_kwargs a (Phono3pyYaml_read filename) in
  load a = (EvYamlRead filename :: calls_after a kw,
            inr (apply_setters (calls_after a kw) (Phono3py_init kw))).
Proof.
  intros Hy Hcmp kw; subst kw.
  unfold load, yaml_kwargs, init_kwargs, compares_auto.
  rewrite Hy. unfold bind at 1 2. unfold call at 1. cbv beta iota.
  unfold bind at 1. rewrite eq_auto_eq, Hcmp. unfold ret at 1.
  run_tail a; rewrite ?Hy; reflexivity.
Qed.

Lemma load_yaml_raises a filename e :
  Args.phono3py_yaml a = Some filename ->
  outcome (eq_auto (Args.primitive_matrix a)) = inl e ->
  load a = ([EvYamlRead filename], inl e).
Proof.
  intros Hy Hcmp. unfold load. rewrite Hy.
  unfold bind at 1 2. unfold call at 1. cbv beta iota.
  unfold bind at 1. rewrite eq_auto_eq, Hcmp. reflexivity.
Qed.

Lemma load_args a :
  Args.phono3py_yaml a = None ->
  guard_fails a = false ->
  let kw := args_kwargs a in
  load a
  = (EvGetCellSettings (cell_settings_kwargs a)
     :: match Args.phonon_supercell_matrix a with
        | Some m => [EvGetSupercellMatrix m]
        | None => []
        end ++ calls_after a kw,
     inr (apply_setters (calls_after a kw) (Phono3py_init kw))).
Proof.
  intros Hy Hg kw; subst kw.
  unfold guard_fails in Hg; rewrite Hy in Hg; simpl in Hg.
  unfold load, args_kwargs, init_kwargs. rewrite Hy.
  fold (cell_settings_kwargs a).
  destruct (get_cell_settings (cell_settings_kwargs a)) as [[cell smat] pmat].
  destruct (Args.phonon_supercell_matrix a) as [m|]; simpl in Hg.
  - rewrite Hg. run_tail a; rewrite ?Hy; reflexivity.
  - run_tail a; rewrite ?Hy; reflexivity.
Qed.

Lemma load_guard a :
  guard_fails a = true ->
  load a
  = ([EvGetCellSettings (cell_settings_kwargs a)], inl (RuntimeError msg)).
Proof.
  unfold guard_fails; intros Hg.
  destruct (Args.phono3py_yaml a) as [f|] eqn:Hy; [discriminate Hg|].
  destruct (Args.phonon_supercell_matrix a) as [m|] eqn:Hm;
    [|discriminate Hg].
  simpl in Hg.
  unfold load. rewrite Hy, Hm. fold (cell_settings_kwargs a).
  destruct (get_cell_settings (cell_settings_kwargs a)) as [[cell smat] pmat].
  rewrite Hg. reflexivity.
Qed.


(** The ways a run of [load] can go. *)
Lemma load_eq a :
  load a
  = match raises a with
    | Some e => (resolution_calls a, inl e)
    | None =>
        (resolution_calls a ++ calls_after a (resolved_kwargs a),
         inr (apply_setters (calls_after a (resolved_kwargs a))
                (Phono3py_init (resolved_kwargs a))))
    end.
Proof.
  unfold raises, resolution_calls, resolved_kwargs.
  destruct (guard_fails a) eqn:Hg.
  - rewrite (load_guard a Hg). unfold guard_fails in Hg.
    destruct (Args.phono3py_yaml a); [discriminate Hg|].
    destruct (Args.phonon_supercell_matrix a); [reflexivity|discriminate Hg].
  - destruct (Args.phono3py_yaml a) as [f|] eqn:Hy.
    + destruct (outcome (eq_auto (Args.primitive_matrix a)))
        as [e|b] eqn:Hcmp.
      * apply (load_yaml_raises a f e Hy Hcmp).
      * rewrite (load_yaml a f b Hy Hcmp). reflexivity.
    + rewrite (load_args a Hy Hg).
      destruct (Args.phonon_supercell_matrix a); reflexivity.
Qed.

Lemma load_returns a ph :
  outcome (load a) = inr ph ->
  raises a = None /\
  trace (load a) = resolution_calls a ++ calls_after a (resolved_kwargs a) /\
  ph = apply_setters (calls_after a (resolved_kwargs a))
         (Phono3py_init (resolved_kwargs a)).
Proof.
  rewrite load_eq. destruct (raises a); simpl; [discriminate|].
  intros [= <-]. auto.
Qed.


Lemma inits_fc3_calls p s : inits (fc3_calls p s) = [].
Proof. destruct s; reflexivity. Qed.

Lemma inits_fc2_calls p s : inits (fc2_calls p s) = [].
Proof. destruct s; reflexivity. Qed.

Lemma inits_calls_after a kw : inits (calls_after a kw) = [kw].
Proof.
  unfold calls_after. rewrite !inits_app, inits_fc3_calls, inits_fc2_calls.
  destruct (Args.mesh a); reflexivity.
Qed.

Lemma inits_resolution_calls a : inits (resolution_calls a) = [].
Proof.
  unfold resolution_calls.
  destruct (Args.phono3py_yaml a); [reflexivity|].
  destruct (Args.phonon_supercell_matrix a); [|reflexivity].
  destruct (guard_fails a); reflexivity.
Qed.

(** A run that returns constructed the object once, from
    [resolved_kwargs]; a run that raises constructed none. *)
Lemma inits_load a :
  inits (trace (load a))
  = match raises a with Some _ => [] | None => [resolved_kwargs a] end.
Proof.
  rewrite load_eq. destruct (raises a); simpl.
  - apply inits_resolution_calls.
  - rewrite inits_app, inits_resolution_calls, inits_calls_after.
    reflexivity.
Qed.

(** The kinds of calls made while resolving, and after. *)
Lemma In_resolution_calls a e :
  In e (resolution_calls a) ->
  match e with
  | EvGetCellSettings kw =>
      kw = cell_settings_kwargs a /\ Args.phono3py_yaml a = None
  | EvGetSupercellMatrix _ => Args.phono3py_yaml a = None
  | EvYamlRead f => Args.phono3py_yaml a = Some f
  | _ => False
  end.
Proof.
  unfold resolution_calls.
  destruct (Args.phono3py_yaml a) as [f|].
  - intros [<-|[]]. reflexivity.
  - intros [<-|He]; [split; reflexivity|].
    destruct (Args.phonon_supercell_matrix a); [|contradiction].
    destruct (guard_fails a); [contradiction|].
    destruct He as [<-|[]]. reflexivity.
Qed.

Lemma In_calls_after a kw e :
  In e (calls_after a kw) ->
  match e with
  | EvGetCellSettings _ | EvGetSupercellMatrix _ | EvYamlRead _ => False
  | EvInit k => k = kw
  | EvGetNacParams _ n _ _ _ => n = nac_params_given a
  | EvSetPhph n f =>
      n = resolved_nac a kw /\ f = Args.frequency_scale_factor a
      /\ Args.mesh a <> None
  | _ => True
  end.
Proof.
  unfold calls_after. intros He.
  apply in_app_or in He. destruct He as [He|He].
  - simpl in He. destruct He as [<-|[<-|[<-|[]]]]; auto.
  - apply in_app_or in He. destruct He as [He|He].
    + apply in_app_or in He. destruct He as [He|He].
      * destruct (hdf5_source "fc3.hdf5" _ _); simpl in He;
          [destruct He as [<-|[<-|[]]]; exact I | contradiction].
      * destruct (hdf5_source "fc2.hdf5" _ _); simpl in He;
          [destruct He as [<-|[<-|[]]]; exact I | contradiction].
    + destruct (Args.mesh a); simpl in He;
        [destruct He as [<-|[]] | contradiction].
      repeat split; discriminate.
Qed.

Lemma apply_setters_object_calls (t : list event) (ph : Phono3py) :
  apply_setters (object_calls t) ph = apply_setters t ph.
Proof.
  revert ph; induction t as [|e t IH]; intros ph; [reflexivity|].
  destruct e; simpl; apply IH.
Qed.

Lemma object_calls_app (t1 t2 : list event) :
  object_calls (t1 ++ t2) = object_calls t1 ++ object_calls t2.
Proof. apply filter_app. Qed.

Lemma object_calls_setters (t : list event) :
  inits t = [] -> forallb is_setter (object_calls t) = true.
Proof.
  induction t as [|e t IH]; [reflexivity|].
  destruct e; simpl; try exact IH; discriminate.
Qed.

Lemma object_calls_resolution a : object_calls (resolution_calls a) = [].
Proof.
  unfold resolution_calls.
  destruct (Args.phono3py_yaml a); [reflexivity|].
  destruct (Args.phonon_supercell_matrix a); [|reflexivity].
  destruct (guard_fails a); reflexivity.
Qed.



End TraceLemmas.

(** ** The force-constant step *)

Section ForceConstantClaims.
Context {D : Domain} {C : Collaborators D}.

(** C1, the code at the failing input: when the names of raw-forces files
    are given for both orders (and no hdf5 names), [_set_force_constants]
    takes the [pass] branches: it calls no reader, assigns neither [fc3]
    nor [fc2] and leaves the object as it was, whatever the directory
    holds. *)
Theorem C1_forces_files_supply_nothing :
  forall (ph : Phono3py) (ds : option Dataset)
         (forces_fc3 forces_fc2 : string) (fcc : option string),
    _set_force_constants ph ds None None
      (Some forces_fc3) (Some forces_fc2) fcc
    = ([], inr ph).
Proof. intros. reflexivity. Qed.

(** C5: in every run of [_set_force_constants], a file read by the reader
    of one order is the chosen hdf5 source of that order (the explicit name
    or the default file), the array the reader returns is the one assigned
    in the very next step to the attribute of that order, nothing else is
    assigned to it, and the object handed back is the one given with
    exactly these assignments made. *)
Theorem C5_hdf5_array_assigned_unchanged :
  forall (ph : Phono3py) ds f3 f2 ff3 ff2 fcc,
    let r := _set_force_constants ph ds f3 f2 ff3 ff2 fcc in
    outcome r = inr (apply_setters (trace r) ph) /\
    (forall f p, In (EvReadFc3 f p) (trace r) ->
       hdf5_source "fc3.hdf5" f3 ff3 = Some f /\
       (exists l1 l2,
          trace r
          = l1 ++ EvReadFc3 f p
                  :: EvSetFc3 (read_fc3_from_hdf5 f p) :: l2) /\
       (forall v, In (EvSetFc3 v) (trace r) ->
          v = read_fc3_from_hdf5 f p)) /\
    (forall f p, In (EvReadFc2 f p) (trace r) ->
       hdf5_source "fc2.hdf5" f2 ff2 = Some f /\
       (exists l1 l2,
          trace r
          = l1 ++ EvReadFc2 f p
                  :: EvSetFc2 (read_fc2_from_hdf5 f p) :: l2) /\
       (forall v, In (EvSetFc2 v) (trace r) ->
          v = read_fc2_from_hdf5 f p)).
Proof.
  intros ph ds f3 f2 ff3 ff2 fcc r; subst r.
  rewrite set_force_constants_eq. unfold trace, outcome; simpl.
  set (p2s := p2s_map (primitive ph)).
  destruct (hdf5_source "fc3.hdf5" f3 ff3) as [s3|];
    destruct (hdf5_source "fc2.hdf5" f2 ff2) as [s2|]; simpl;
    (split; [reflexivity|]); split; intros f p Hin;
    repeat (destruct Hin as [Hin|Hin]; try discriminate Hin);
    try contradiction; injection Hin as -> ->;
    (split; [reflexivity|]); split;
    try (intros v Hv;
         repeat (destruct Hv as [Hv|Hv]; try discriminate Hv);
         try contradiction; injection Hv as <-; reflexivity).
  - exists [], [EvReadFc2 s2 p; EvSetFc2 (read_fc2_from_hdf5 s2 p)].
    reflexivity.
  - exists [EvReadFc3 s3 p; EvSetFc3 (read_fc3_from_hdf5 s3 p)], [].
    reflexivity.
  - exists [], []. reflexivity.
  - exists [], []. reflexivity.
Qed.

End ForceConstantClaims.

(** C5 on the small instance: fc2.hdf5 named explicitly, fc3.hdf5 found in
    the directory. *)
Lemma C5_witness :
  let r := @_set_force_constants Toy.D Toy.C
             (Toy.init (@resolved_kwargs Toy.D Toy.C Toy.from_cell))
             None None (Some "fc2.hdf5") None None None in
  In (@EvReadFc2 Toy.D "fc2.hdf5" 5%nat) (trace r) /\
  (forall v, In (@EvSetFc2 Toy.D v) (trace r) -> v = 208%nat).
Proof.
  split.
  - vm_compute. right; right; left; reflexivity.
  - destruct (@C5_hdf5_array_assigned_unchanged Toy.D Toy.C
                (Toy.init (@resolved_kwargs Toy.D Toy.C Toy.from_cell))
                None None (Some "fc2.hdf5") None None None)
      as (_ & _ & H).
    destruct (H "fc2.hdf5" 5%nat) as (_ & _ & Hv); [|exact Hv].
    vm_compute. right; right; left; reflexivity.
Defined.

(** ** What [load] hands to the constructor *)

Section ConstructorClaims.
Context {D : Domain} {C : Collaborators D}.


(** C8: without a phono3py.yaml, a phonon_supercell_matrix given while
    both unitcell and unitcell_filename are None makes [load] raise a
    RuntimeError; the cell helper is the only call made before, and no
    constructor call is. *)
Theorem C8_guard_raises_before_construction :
  forall (a : Args.t),
    Args.phono3py_yaml a = None ->
    Args.phonon_supercell_matrix a <> None ->
    Args.unitcell a = None ->
    Args.unitcell_filename a = None ->
    (exists s, outcome (load a) = inl (RuntimeError s)) /\
    trace (load a) = [EvGetCellSettings (cell_settings_kwargs a)] /\
    inits (trace (load a)) = [].
Proof.
  intros a Hy Hm Hu Hf.
  assert (Hg : guard_fails a = true).
  { unfold guard_fails. rewrite Hy, Hu, Hf.
    destruct (Args.phonon_supercell_matrix a); [reflexivity|].
    contradiction Hm; reflexivity. }
  rewrite (load_guard a Hg). simpl.
  split; [exists msg; reflexivity|]. split; reflexivity.
Qed.



End ConstructorClaims.

(** ** The object handed back *)

Section ObjectClaims.
Context {D : Domain} {C : Collaborators D}.

(** C7: the object [load] returns is the output of the one constructor
    call of the run with the setter calls of the run made on it, in order;
    constructor and setters ([fc3], [fc2], [set_phph_interaction]) are the
    only calls on the object. *)
Theorem C7_constructor_output_with_setters :
  forall (a : Args.t) (ph : Phono3py),
    outcome (load a) = inr ph ->
    exists kw sets,
      object_calls (trace (load a)) = EvInit kw :: sets /\
      forallb is_setter sets = true /\
      ph = apply_setters sets (Phono3py_init kw).
Proof.
  intros a ph Hret.
  destruct (load_returns a ph Hret) as (_ & Ht & Hph).
  set (kw := resolved_kwargs a) in *.
  set (rest :=
         (fc3_calls (p2s_map (primitive (Phono3py_init kw)))
            (hdf5_source "fc3.hdf5" (Args.fc3_filename a)
               (Args.forces_fc3_filename a))
          ++ fc2_calls (p2s_map (primitive (Phono3py_init kw)))
               (hdf5_source "fc2.hdf5" (Args.fc2_filename a)
                  (Args.forces_fc2_filename a)))
         ++ match Args.mesh a with
            | Some _ =>
                [EvSetPhph (resolved_nac a kw)
                   (Args.frequency_scale_factor a)]
            | None => []
            end).
  assert (Hrest : inits rest = []).
  { subst rest. rewrite !inits_app, inits_fc3_calls, inits_fc2_calls.
    destruct (Args.mesh a); reflexivity. }
  exists kw, (object_calls rest).
  split; [|split].
  - rewrite Ht, object_calls_app, object_calls_resolution. reflexivity.
  - apply object_calls_setters, Hrest.
  - rewrite Hph, apply_setters_object_calls. reflexivity.
Qed.

(** A returning run with a mesh ends in the call of
    [set_phph_interaction], made on the object as it is by then. *)
Lemma load_returns_with_mesh a ph :
  Args.mesh a <> None ->
  outcome (load a) = inr ph ->
  exists t,
    trace (load a)
    = t ++ [EvSetPhph (resolved_nac a (resolved_kwargs a))
              (Args.frequency_scale_factor a)] /\
    inits t = [resolved_kwargs a] /\
    (forall e, In e t ->
       match e with EvSetPhph _ _ => False | _ => True end) /\
    ph = set_phph_interaction
           (apply_setters t (Phono3py_init (resolved_kwargs a)))
           (resolved_nac a (resolved_kwargs a))
           (Args.frequency_scale_factor a).
Proof.
  intros Hmesh Hret.
  destruct (load_returns a ph Hret) as (_ & Ht & Hph).
  set (kw := resolved_kwargs a) in *.
  set (fc := fc3_calls (p2s_map (primitive (Phono3py_init kw)))
               (hdf5_source "fc3.hdf5" (Args.fc3_filename a)
                  (Args.forces_fc3_filename a))
             ++ fc2_calls (p2s_map (primitive (Phono3py_init kw)))
                  (hdf5_source "fc2.hdf5" (Args.fc2_filename a)
                     (Args.forces_fc2_filename a))).
  set (head :=
         [EvGetUnits (Args.calculator a); EvInit kw;
          EvGetNacParams (primitive (Phono3py_init kw)) (nac_params_given a)
            (Args.born_filename a) (Args.is_nac a)
            (Units.nac_factor
               (get_default_physical_units (Args.calculator a)))]).
  assert (Hca : calls_after a kw
                = (head ++ fc)
                  ++ [EvSetPhph (resolved_nac a kw)
                        (Args.frequency_scale_factor a)]).
  { unfold calls_after. fold fc. fold head.
    destruct (Args.mesh a); [|contradiction Hmesh; reflexivity].
    rewrite app_assoc. reflexivity. }
  assert (Hfc : forall e, In e fc ->
            match e with EvSetPhph _ _ | EvInit _ => False | _ => True end).
  { intros e He. subst fc. apply in_app_or in He. destruct He as [He|He].
    - destruct (hdf5_source "fc3.hdf5" _ _); cbn [fc3_calls In] in He;
        [destruct He as [<-|[<-|[]]]; exact I | contradiction].
    - destruct (hdf5_source "fc2.hdf5" _ _); cbn [fc2_calls In] in He;
        [destruct He as [<-|[<-|[]]]; exact I | contradiction]. }
  exists (resolution_calls a ++ head ++ fc).
  split; [|split; [|split]].
  - rewrite Ht, Hca, !app_assoc. reflexivity.
  - rewrite !inits_app, inits_resolution_calls. subst fc.
    rewrite inits_app, inits_fc3_calls, inits_fc2_calls. reflexivity.
  - intros e He. apply in_app_or in He. destruct He as [He|He].
    + apply In_resolution_calls in He. destruct e; auto.
    + apply in_app_or in He. destruct He as [He|He].
      * subst head. cbn [In] in He.
        destruct He as [<-|[<-|[<-|[]]]]; exact I.
      * apply Hfc in He. destruct e; auto.
  - rewrite Hph, Hca, !apply_setters_app.
    assert (Hres : forall q, apply_setters (resolution_calls a) q = q).
    { intros q. unfold resolution_calls.
      destruct (Args.phono3py_yaml a); [reflexivity|].
      destruct (Args.phonon_supercell_matrix a); [|reflexivity].
      destruct (guard_fails a); reflexivity. }
    rewrite Hres. reflexivity.
Qed.

(** C10: in a run of [load] that returns, [set_phph_interaction] is called
    exactly when [mesh] is given.  It is then the last call, made once, on
    the constructed object with the force constants found assigned, with
    what the NAC helper returned and frequency_scale_factor, and what it
    gives is what [load] returns.  When [mesh] is None the object returned
    is the constructed one with the force constants found assigned and
    nothing more; it stays the same whatever the NAC helper returns and
    whatever is_nac, nac_params, born_filename and frequency_scale_factor
    are: none of them reaches it. *)
Theorem C10_interaction_iff_mesh :
  forall (a : Args.t) (ph : Phono3py),
    outcome (load a) = inr ph ->
    ((exists n f, In (EvSetPhph n f) (trace (load a)))
     <-> Args.mesh a <> None) /\
    (Args.mesh a = None ->
     forall g is_nac nac_params born_filename frequency_scale_factor,
       outcome
         (@load D (with_get_nac_params g)
            (with_nac_inputs a is_nac nac_params born_filename
               frequency_scale_factor))
       = inr ph) /\
    (Args.mesh a <> None ->
     exists kw t,
       let n :=
         get_nac_params (primitive (Phono3py_init kw)) (nac_params_given a)
           (Args.born_filename a) (Args.is_nac a)
           (Units.nac_factor
              (get_default_physical_units (Args.calculator a))) in
       trace (load a)
       = t ++ [EvSetPhph n (Args.frequency_scale_factor a)] /\
       inits t = [kw] /\
       (forall e, In e t ->
          match e with EvSetPhph _ _ => False | _ => True end) /\
       ph = set_phph_interaction (apply_setters t (Phono3py_init kw)) n
              (Args.frequency_scale_factor a)) /\
    (Args.mesh a = None ->
     exists kw,
       inits (trace (load a)) = [kw] /\
       ph = apply_setters (trace (load a)) (Phono3py_init kw)).
Proof.
  intros a ph Hret.
  destruct (load_returns a ph Hret) as (Hg & Ht & Hph).
  split; [split|split; [|split]].
  - intros (n & f & Hin). rewrite Ht in Hin.
    apply in_app_or in Hin. destruct Hin as [Hin|Hin].
    + destruct (In_resolution_calls a _ Hin).
    + apply (In_calls_after a _ _ Hin).
  - intros Hmesh. rewrite Ht.
    exists (resolved_nac a (resolved_kwargs a)),
      (Args.frequency_scale_factor a).
    apply in_or_app; right. unfold calls_after.
    apply in_or_app; right. apply in_or_app; right.
    destruct (Args.mesh a); [left; reflexivity | contradiction].
  - intros Hmesh g i n b f.
    rewrite (@load_eq D (with_get_nac_params g)).
    change (@raises D (with_get_nac_params g) (with_nac_inputs a i n b f))
      with (raises a).
    rewrite Hg. unfold outcome; cbn [snd]. rewrite Hph.
    unfold calls_after; cbn [Args.mesh with_nac_inputs].
    rewrite Hmesh, !app_nil_r.
    cbn [app]. reflexivity.
  - intros Hmesh.
    destruct (load_returns_with_mesh a ph Hmesh Hret)
      as (t & Htr & Hi & Hno & Hobj).
    exists (resolved_kwargs a), t. cbv zeta.
    fold (resolved_nac a (resolved_kwargs a)). auto.
  - intros Hmesh. exists (resolved_kwargs a).
    rewrite inits_load, Hg. split; [reflexivity|].
    rewrite Ht, apply_setters_app, Hph.
    assert (Hres : forall q, apply_setters (resolution_calls a) q = q).
    { intros q. unfold resolution_calls.
      destruct (Args.phono3py_yaml a); [reflexivity|].
      destruct (Args.phonon_supercell_matrix a); [|reflexivity].
      destruct (guard_fails a); reflexivity. }
    rewrite Hres. reflexivity.
Qed.

End ObjectClaims.

(** ** The priorities that rest on the helpers of phonopy *)

Section PriorityClaims.
Context {D : Domain} {C : Collaborators D}.

(** C3, amended: when no phono3py.yaml is named and the cell helper
    chooses as the spec says, a run of [load] that returns called the
    helper with the four cell arguments as given and called the constructor
    once, with the cell of the first source given in the order
    unitcell_filename, supercell_filename, unitcell, supercell. *)
Theorem C3_cell_priority_without_yaml :
  forall (a : Args.t) (ph : Phono3py),
    cell_helper_follows_spec ->
    Args.phono3py_yaml a = None ->
    outcome (load a) = inr ph ->
    In (EvGetCellSettings (cell_settings_kwargs a)) (trace (load a)) /\
    exists kw,
      inits (trace (load a)) = [kw] /\
      forall s,
        cell_priority (Args.unitcell_filename a) (Args.supercell_filename a)
          (Args.unitcell a) (Args.supercell a) = Some s ->
        Init.unitcell kw = cell_of_source (Args.calculator a) s.
Proof.
  intros a ph Hspec Hy Hret.
  destruct (load_returns a ph Hret) as (Hg & Ht & _).
  split.
  - rewrite Ht. apply in_or_app; left.
    unfold resolution_calls. rewrite Hy. left; reflexivity.
  - exists (resolved_kwargs a). rewrite inits_load, Hg.
    split; [reflexivity|]. intros s Hs.
    unfold resolved_kwargs. rewrite Hy. unfold args_kwargs.
    pose proof (Hspec (cell_settings_kwargs a) s Hs) as Hcell.
    destruct (get_cell_settings (cell_settings_kwargs a))
      as [[cell smat] pmat].
    exact Hcell.
Qed.

(** C2, amended: when the NAC helper resolves as the spec says, the NAC
    parameters [load] passes on to [set_phph_interaction] follow the
    priority nac_params > born_filename > is_nac, where the first place is
    held by the [nac_params] argument only if no phono3py.yaml is named;
    with one named the argument is not looked at, and the first place is
    held by the NAC parameters of that file if is_nac is True and is empty
    if it is False. *)
Theorem C2_nac_priority :
  forall (a : Args.t) n f,
    nac_helper_follows_spec ->
    In (EvSetPhph n f) (trace (load a)) ->
    exists kw,
      inits (trace (load a)) = [kw] /\
      n = get_nac_params_spec (primitive (Phono3py_init kw))
            (match Args.phono3py_yaml a with
             | None => Args.nac_params a
             | Some filename =>
                 if Args.is_nac a
                 then Yaml.nac_params (Phono3pyYaml_read filename)
                 else None
             end)
            (Args.born_filename a) (Args.is_nac a)
            (Units.nac_factor
               (get_default_physical_units (Args.calculator a))).
Proof.
  intros a n f Hspec Hin.
  rewrite inits_load. rewrite load_eq in Hin.
  destruct (raises a); unfold trace in Hin; cbn [fst] in Hin.
  - destruct (In_resolution_calls a _ Hin).
  - exists (resolved_kwargs a). split; [reflexivity|].
    apply in_app_or in Hin. destruct Hin as [Hin|Hin].
    + destruct (In_resolution_calls a _ Hin).
    + destruct (In_calls_after a _ _ Hin) as (-> & _ & _).
      unfold resolved_nac. apply Hspec.
Qed.

End PriorityClaims.

(** ** The claims on the small instance *)

Lemma toy_cell_helper_follows_spec :
  @cell_helper_follows_spec Toy.D Toy.C.
Proof.
  intros kw s. unfold cell_priority; simpl; unfold Toy.cell_settings.
  destruct (CellSettings.unitcell_filename kw),
    (CellSettings.supercell_filename kw),
    (CellSettings.unitcell kw), (CellSettings.supercell kw);
    intros [= <-]; reflexivity.
Qed.

Lemma toy_nac_helper_follows_spec :
  @nac_helper_follows_spec Toy.D Toy.C.
Proof. intros p n b i f. reflexivity. Qed.

(** C2 as stated fails: with a phono3py.yaml named, [nac_params=1] is
    given and yet the parameters passed on are those of the file, 9. *)
Lemma C2_counterexample :
  ~ (forall p,
       Args.nac_params Toy.from_yaml = Some p ->
       forall n f,
         In (@EvSetPhph Toy.D n f)
            (trace (@load Toy.D Toy.C Toy.from_yaml)) ->
         n = Some p).
Proof.
  intros H.
  specialize (H 1%nat eq_refl (Some 9%nat) None).
  assert (Hin : In (@EvSetPhph Toy.D (Some 9%nat) None)
                   (trace (@load Toy.D Toy.C Toy.from_yaml))).
  { vm_compute. do 6 right. left. reflexivity. }
  specialize (H Hin). discriminate H.
Qed.

Lemma C2_witness :
  In (@EvSetPhph Toy.D (Some 9%nat) None)
     (trace (@load Toy.D Toy.C Toy.from_yaml)) /\
  exists kw,
    inits (trace (@load Toy.D Toy.C Toy.from_yaml)) = [kw] /\
    Some 9%nat
    = @get_nac_params_spec Toy.D Toy.C (Toy.cell (Toy.init kw))
        (Some 9%nat) None true 14%nat.
Proof.
  assert (Hin : In (@EvSetPhph Toy.D (Some 9%nat) None)
                   (trace (@load Toy.D Toy.C Toy.from_yaml))).
  { vm_compute. do 6 right. left. reflexivity. }
  split; [exact Hin|].
  exact (@C2_nac_priority Toy.D Toy.C Toy.from_yaml (Some 9%nat) None
           toy_nac_helper_follows_spec Hin).
Defined.

(** C3 as stated fails: with a phono3py.yaml named, [unitcell=5] is the
    only cell argument given and yet the constructor gets the cell of the
    file, 7. *)
Lemma C3_counterexample :
  ~ (forall kw s,
       In (@EvInit Toy.D kw) (trace (@load Toy.D Toy.C Toy.from_yaml)) ->
       cell_priority (Args.unitcell_filename Toy.from_yaml)
         (Args.supercell_filename Toy.from_yaml)
         (Args.unitcell Toy.from_yaml) (Args.supercell Toy.from_yaml)
       = Some s ->
       Init.unitcell kw
       = @cell_of_source Toy.D Toy.C (Args.calculator Toy.from_yaml) s).
Proof.
  intros H.
  specialize (H (@resolved_kwargs Toy.D Toy.C Toy.from_yaml)
                (@FromUnitcell Toy.D 5%nat)).
  assert (Hin : In (@EvInit Toy.D (@resolved_kwargs Toy.D Toy.C Toy.from_yaml))
                   (trace (@load Toy.D Toy.C Toy.from_yaml))).
  { vm_compute. do 2 right. left. reflexivity. }
  specialize (H Hin eq_refl). discriminate H.
Qed.

Lemma C3_witness :
  Args.phono3py_yaml Toy.from_cell = None /\
  outcome (@load Toy.D Toy.C Toy.from_cell) = inr Toy.loaded_from_cell /\
  exists kw,
    inits (trace (@load Toy.D Toy.C Toy.from_cell)) = [kw] /\
    forall s,
      @cell_priority Toy.D None None (Some 5%nat) None = Some s ->
      Init.unitcell kw = @cell_of_source Toy.D Toy.C None s.
Proof.
  split; [reflexivity|]. split; [reflexivity|].
  exact (proj2 (@C3_cell_priority_without_yaml Toy.D Toy.C Toy.from_cell
                  Toy.loaded_from_cell toy_cell_helper_follows_spec
                  eq_refl eq_refl)).
Defined.



Lemma C7_witness :
  outcome (@load Toy.D Toy.C Toy.from_cell) = inr Toy.loaded_from_cell /\
  exists kw sets,
    object_calls (trace (@load Toy.D Toy.C Toy.from_cell))
    = EvInit kw :: sets /\
    forallb is_setter sets = true /\
    Toy.loaded_from_cell = @apply_setters Toy.D Toy.C sets (Toy.init kw).
Proof.
  split; [reflexivity|].
  exact (@C7_constructor_output_with_setters Toy.D Toy.C Toy.from_cell
           Toy.loaded_from_cell eq_refl).
Defined.

Lemma C8_witness :
  Args.phono3py_yaml Toy.without_unitcell = None /\
  Args.phonon_supercell_matrix Toy.without_unitcell <> None /\
  Args.unitcell Toy.without_unitcell = None /\
  Args.unitcell_filename Toy.without_unitcell = None /\
  (exists s,
     outcome (@load Toy.D Toy.C Toy.without_unitcell)
     = inl (RuntimeError s)) /\
  inits (trace (@load Toy.D Toy.C Toy.without_unitcell)) = [].
Proof.
  assert (Hm : Args.phonon_supercell_matrix Toy.without_unitcell <> None)
    by (simpl; discriminate).
  repeat (split; [first [reflexivity | exact Hm]|]).
  destruct (@C8_guard_raises_before_construction Toy.D Toy.C
              Toy.without_unitcell eq_refl Hm eq_refl eq_refl)
    as (Hraise & _ & Hnone).
  split; [exact Hraise | exact Hnone].
Defined.


Lemma C10_witness :
  outcome (@load Toy.D Toy.C Toy.without_mesh)
  = inr Toy.loaded_without_mesh /\
  Args.mesh Toy.without_mesh = None /\
  ~ (exists n f,
       In (@EvSetPhph Toy.D n f)
          (trace (@load Toy.D Toy.C Toy.without_mesh))) /\
  outcome
    (@load Toy.D
       (@with_get_nac_params Toy.D Toy.C (fun _ _ _ _ _ => Some 3%nat))
       (with_nac_inputs Toy.without_mesh false (Some 4%nat)
          (Some "BORN.other") (Some 2%nat)))
  = inr Toy.loaded_without_mesh /\
  outcome (@load Toy.D Toy.C Toy.from_cell) = inr Toy.loaded_from_cell /\
  Args.mesh Toy.from_cell <> None /\
  exists kw t,
    trace (@load Toy.D Toy.C Toy.from_cell)
    = t ++ [@EvSetPhph Toy.D
              (Toy.nac_helper (Toy.cell (Toy.init kw)) None None true 14%nat)
              None] /\
    Toy.loaded_from_cell
    = Toy.interaction (@apply_setters Toy.D Toy.C t (Toy.init kw))
        (Toy.nac_helper (Toy.cell (Toy.init kw)) None None true 14%nat)
        None.
Proof.
  split; [reflexivity|]. split; [reflexivity|].
  destruct (@C10_interaction_iff_mesh Toy.D Toy.C Toy.without_mesh
              Toy.loaded_without_mesh eq_refl) as (Hiff & Hsame & _).
  split; [|split; [|split; [|split]]].
  - intros Hcall. apply Hiff in Hcall. apply Hcall. reflexivity.
  - apply Hsame. reflexivity.
  - reflexivity.
  - simpl; discriminate.
  - destruct (@C10_interaction_iff_mesh Toy.D Toy.C Toy.from_cell
                Toy.loaded_from_cell eq_refl) as (_ & _ & Hlast & _).
    assert (Hmesh : Args.mesh Toy.from_cell <> None)
      by (simpl; discriminate).
    destruct (Hlast Hmesh) as (kw & t & Ht & _ & _ & Hobj).
    exists kw, t. split; [exact Ht | exact Hobj].
Defined.

(** ** Further properties of the force-constant step *)

Section ForceConstantSources.
Context {D : Domain} {C : Collaborators D}.

Lemma In_fc3_calls p s e :
  In e (fc3_calls p s) ->
  s <> None /\
  match e with
  | EvReadFc3 f q => s = Some f /\ q = p
  | EvSetFc3 _ => True
  | _ => False
  end.
Proof.
  destruct s as [f|]; simpl; [|contradiction].
  intros [<-|[<-|[]]]; (split; [discriminate|]); auto.
Qed.

Lemma In_fc2_calls p s e :
  In e (fc2_calls p s) ->
  s <> None /\
  match e with
  | EvReadFc2 f q => s = Some f /\ q = p
  | EvSetFc2 _ => True
  | _ => False
  end.
Proof.
  destruct s as [f|]; simpl; [|contradiction].
  intros [<-|[<-|[]]]; (split; [discriminate|]); auto.
Qed.

Lemma hdf5_source_default (d : string) :
  hdf5_source d None None = if isfile d then Some d else None.
Proof. reflexivity. Qed.

(** X1: a raw-forces file name given without an hdf5 file name keeps the
    default hdf5 file of that order from being read: for that order no
    reader is called and nothing is assigned, even when 'fc3.hdf5' (or
    'fc2.hdf5') is in the directory, and whatever is asked for the other
    order. *)
Theorem X1_forces_name_shadows_default_hdf5 :
  forall (ph : Phono3py) ds fcc (forces : string),
    (forall f2 ff2 e,
       In e (trace (_set_force_constants ph ds None f2
                      (Some forces) ff2 fcc)) ->
       match e with
       | EvReadFc3 _ _ | EvSetFc3 _ => False
       | _ => True
       end) /\
    (forall f3 ff3 e,
       In e (trace (_set_force_constants ph ds f3 None
                      ff3 (Some forces) fcc)) ->
       match e with
       | EvReadFc2 _ _ | EvSetFc2 _ => False
       | _ => True
       end).
Proof.
  intros ph ds fcc forces. split.
  - intros f2 ff2 e. rewrite set_force_constants_eq.
    unfold trace; cbn [fst hdf5_source fc3_calls app].
    intros He. apply In_fc2_calls in He. destruct He as [_ He].
    destruct e; auto.
  - intros f3 ff3 e. rewrite set_force_constants_eq.
    unfold trace; cbn [fst].
    replace (hdf5_source "fc2.hdf5" None (Some forces)) with (@None string)
      by reflexivity.
    cbn [fc2_calls]. rewrite app_nil_r.
    intros He. apply In_fc3_calls in He. destruct He as [_ He].
    destruct e; auto.
Qed.

(** X2: with neither an hdf5 name nor a forces name for an order, the
    reader of that order is called exactly when the default file is in the
    directory, and on no other file. *)
Theorem X2_default_hdf5_read_iff_present :
  forall (ph : Phono3py) ds fcc,
    (forall f2 ff2,
       let r := _set_force_constants ph ds None f2 None ff2 fcc in
       (In (EvReadFc3 "fc3.hdf5" (p2s_map (primitive ph))) (trace r)
        <-> isfile "fc3.hdf5" = true) /\
       (forall f p, In (EvReadFc3 f p) (trace r) -> f = "fc3.hdf5")) /\
    (forall f3 ff3,
       let r := _set_force_constants ph ds f3 None ff3 None fcc in
       (In (EvReadFc2 "fc2.hdf5" (p2s_map (primitive ph))) (trace r)
        <-> isfile "fc2.hdf5" = true) /\
       (forall f p, In (EvReadFc2 f p) (trace r) -> f = "fc2.hdf5")).
Proof.
  intros ph ds fcc. split.
  - intros f2 ff2 r; subst r. rewrite set_force_constants_eq.
    unfold trace; cbn [fst]. rewrite (hdf5_source_default "fc3.hdf5").
    destruct (isfile "fc3.hdf5"); cbn [fc3_calls app].
    + split; [split; [reflexivity | intros _; left; reflexivity]|].
      intros f p He. cbn [In] in He.
      destruct He as [He|[He|He]]; [congruence | discriminate He |].
      apply In_fc2_calls in He. destruct He as [_ []].
    + split; [split; [|discriminate]|].
      * intros He. apply In_fc2_calls in He. destruct He as [_ []].
      * intros f p He. apply In_fc2_calls in He. destruct He as [_ []].
  - intros f3 ff3 r; subst r. rewrite set_force_constants_eq.
    unfold trace; cbn [fst]. rewrite (hdf5_source_default "fc2.hdf5").
    destruct (isfile "fc2.hdf5"); cbn [fc2_calls].
    + split; [split; [reflexivity|]|].
      * intros _. apply in_or_app; right. left; reflexivity.
      * intros f p He. apply in_app_or in He. destruct He as [He|He].
        -- apply In_fc3_calls in He. destruct He as [_ []].
        -- cbn [In] in He.
           destruct He as [He|[He|[]]]; [congruence | discriminate He].
    + rewrite app_nil_r. split; [split; [|discriminate]|].
      * intros He. apply In_fc3_calls in He. destruct He as [_ []].
      * intros f p He. apply In_fc3_calls in He. destruct He as [_ []].
Qed.

(** X3: both readers get the [p2s_map] of the primitive cell of the object
    as it was handed in: it is read once (line 267), before anything is
    assigned, so the second-order reader does not see what assigning [fc3]
    may have done to the object. *)
Theorem X3_readers_get_the_initial_p2s_map :
  forall (ph : Phono3py) ds f3 f2 ff3 ff2 fcc f p,
    In (EvReadFc3 f p)
       (trace (_set_force_constants ph ds f3 f2 ff3 ff2 fcc))
    \/ In (EvReadFc2 f p)
          (trace (_set_force_constants ph ds f3 f2 ff3 ff2 fcc)) ->
    p = p2s_map (primitive ph).
Proof.
  intros ph ds f3 f2 ff3 ff2 fcc f p.
  rewrite set_force_constants_eq. unfold trace; cbn [fst].
  intros [He|He]; apply in_app_or in He; destruct He as [He|He].
  - apply In_fc3_calls in He. destruct He as [_ [_ ->]]. reflexivity.
  - apply In_fc2_calls in He. destruct He as [_ []].
  - apply In_fc3_calls in He. destruct He as [_ []].
  - apply In_fc2_calls in He. destruct He as [_ [_ ->]]. reflexivity.
Qed.

End ForceConstantSources.

(** ** What a run of [load] does not depend on *)

Section Independence.
Context {D : Domain} {C : Collaborators D}.

(** X4: of the current directory [load] itself only asks whether
    'fc3.hdf5' and 'fc2.hdf5' are there: in two directories that agree on
    these two files the run is the same, calls and result.  The presence of
    'FORCES_FC3', 'disp_fc3.yaml', 'FORCES_FC2' and 'disp_fc2.yaml', tested
    at lines 275 and 285, changes nothing. *)
Theorem X4_only_the_default_hdf5_files_matter :
  forall (g : string -> bool) (a : Args.t),
    g "fc3.hdf5" = isfile "fc3.hdf5" ->
    g "fc2.hdf5" = isfile "fc2.hdf5" ->
    @load D (with_isfile g) a = @load D C a.
Proof.
  intros g a H3 H2.
  rewrite (@load_eq D (with_isfile g)), (@load_eq D C).
  assert (Hs3 : forall f ff,
            @hdf5_source D (with_isfile g) "fc3.hdf5" f ff
            = @hdf5_source D C "fc3.hdf5" f ff).
  { intros [f|] [ff|]; try reflexivity.
    unfold hdf5_source; cbn [isfile with_isfile]. rewrite H3. reflexivity. }
  assert (Hs2 : forall f ff,
            @hdf5_source D (with_isfile g) "fc2.hdf5" f ff
            = @hdf5_source D C "fc2.hdf5" f ff).
  { intros [f|] [ff|]; try reflexivity.
    unfold hdf5_source; cbn [isfile with_isfile]. rewrite H2. reflexivity. }
  assert (Hc : forall kw,
            @calls_after D (with_isfile g) a kw = @calls_after D C a kw).
  { intros kw. unfold calls_after. rewrite Hs3, Hs2. reflexivity. }
  change (@resolved_kwargs D (with_isfile g) a)
    with (@resolved_kwargs D C a).
  rewrite Hc. reflexivity.
Qed.

(** X5: the raw-forces file names are only tested for being given, and
    fc_calculator is not used: a run with other names in place of the given
    ones, or with another fc_calculator, is the same, calls and result.
    The named forces files are never opened. *)
Theorem X5_forces_names_and_fc_calculator_unused :
  forall (a : Args.t) ff3 ff2 fcc ff3' ff2' fcc',
    is_None ff3 = is_None ff3' ->
    is_None ff2 = is_None ff2' ->
    load (with_forces_inputs a ff3 ff2 fcc)
    = load (with_forces_inputs a ff3' ff2' fcc').
Proof.
  intros a ff3 ff2 fcc ff3' ff2' fcc' H3 H2.
  rewrite !load_eq.
  assert (Hs : forall d f x y,
            is_None x = is_None y -> hdf5_source d f x = hdf5_source d f y).
  { intros d [f|] [x|] [y|]; simpl; intros E;
      try reflexivity; discriminate E. }
  assert (Hc : forall kw,
            calls_after (with_forces_inputs a ff3 ff2 fcc) kw
            = calls_after (with_forces_inputs a ff3' ff2' fcc') kw).
  { intros kw. unfold calls_after, resolved_nac, nac_params_given.
    cbn [with_forces_inputs Args.phono3py_yaml Args.nac_params
         Args.is_nac Args.born_filename Args.calculator Args.mesh
         Args.frequency_scale_factor Args.fc3_filename Args.fc2_filename
         Args.forces_fc3_filename Args.forces_fc2_filename].
    rewrite (Hs "fc3.hdf5" _ _ _ H3), (Hs "fc2.hdf5" _ _ _ H2).
    reflexivity. }
  change (resolved_kwargs (with_forces_inputs a ff3 ff2 fcc))
    with (resolved_kwargs (with_forces_inputs a ff3' ff2' fcc')).
  rewrite Hc. reflexivity.
Qed.

(** X7: with a phono3py.yaml named, the arguments supercell_matrix,
    phonon_supercell_matrix, unitcell, supercell, nac_params,
    unitcell_filename and supercell_filename are not looked at: a run with
    any other values for them is the same, calls and result.  In
    particular the guard on phonon_supercell_matrix cannot fire. *)
Theorem X7_yaml_supersedes_cell_arguments :
  forall (a : Args.t) (filename : string),
    Args.phono3py_yaml a = Some filename ->
    forall sm psm uc sc nac ucf scf,
      load (with_cell_inputs a sm psm uc sc nac ucf scf) = load a.
Proof.
  intros a filename Hy sm psm uc sc nac ucf scf.
  assert (Hy' : Args.phono3py_yaml
                  (with_cell_inputs a sm psm uc sc nac ucf scf)
                = Some filename) by exact Hy.
  destruct (outcome (eq_auto (Args.primitive_matrix a)))
    as [e|is_auto] eqn:Hcmp.
  { rewrite (load_yaml_raises _ filename e Hy' Hcmp),
      (load_yaml_raises _ filename e Hy Hcmp). reflexivity. }
  rewrite (load_yaml _ filename is_auto Hy' Hcmp),
    (load_yaml _ filename is_auto Hy Hcmp).
  assert (Hk : yaml_kwargs (with_cell_inputs a sm psm uc sc nac ucf scf)
                 (Phono3pyYaml_read filename)
               = yaml_kwargs a (Phono3pyYaml_read filename))
    by reflexivity.
  rewrite Hk.
  assert (Hc : forall kw,
            calls_after (with_cell_inputs a sm psm uc sc nac ucf scf) kw
            = calls_after a kw).
  { intros kw. unfold calls_after, resolved_nac, nac_params_given.
    cbn [with_cell_inputs Args.phono3py_yaml Args.nac_params
         Args.is_nac Args.born_filename Args.calculator Args.mesh
         Args.frequency_scale_factor Args.fc3_filename Args.fc2_filename
         Args.forces_fc3_filename Args.forces_fc2_filename].
    rewrite Hy. reflexivity. }
  rewrite Hc. reflexivity.
Qed.

(** X8: with a phono3py.yaml named, primitive_matrix is only compared
    with the string 'auto': any two values for which the comparison
    answers False give the same run, calls and result, and in it the
    constructor gets the primitive matrix of the file.  [None] and any
    string other than 'auto' are such values; a matrix is one when Python
    and numpy answer False for it. *)
Theorem X8_yaml_ignores_primitive_matrix_unless_auto :
  forall (a : Args.t) (filename : string) (pm pm' : option pmatrix),
    Args.phono3py_yaml a = Some filename ->
    outcome (eq_auto pm) = inr false ->
    outcome (eq_auto pm') = inr false ->
    load (with_primitive_matrix a pm) = load (with_primitive_matrix a pm') /\
    exists ph kw,
      outcome (load (with_primitive_matrix a pm)) = inr ph /\
      inits (trace (load (with_primitive_matrix a pm))) = [kw] /\
      Init.primitive_matrix kw
      = Yaml.primitive_matrix (Phono3pyYaml_read filename).
Proof.
  intros a filename pm pm' Hy Hpm Hpm'.
  assert (Hy1 : Args.phono3py_yaml (with_primitive_matrix a pm)
                = Some filename) by exact Hy.
  assert (Hy2 : Args.phono3py_yaml (with_primitive_matrix a pm')
                = Some filename) by exact Hy.
  rewrite (load_yaml _ filename false Hy1 Hpm),
    (load_yaml _ filename false Hy2 Hpm').
  assert (Hk : yaml_kwargs (with_primitive_matrix a pm)
                 (Phono3pyYaml_read filename)
               = yaml_kwargs (with_primitive_matrix a pm')
                   (Phono3pyYaml_read filename)).
  { unfold yaml_kwargs, compares_auto.
    cbn [with_primitive_matrix Args.primitive_matrix].
    rewrite Hpm, Hpm'. reflexivity. }
  rewrite Hk. split; [reflexivity|].
  eexists _, _. unfold outcome, trace; cbn [fst snd inits].
  rewrite inits_calls_after.
  split; [reflexivity|]. split; [reflexivity|].
  unfold yaml_kwargs, compares_auto.
  cbn [with_primitive_matrix Args.primitive_matrix].
  rewrite Hpm'. reflexivity.
Qed.

End Independence.

(** ** When [load] returns, and the order of its calls *)

Section Runs.
Context {D : Domain} {C : Collaborators D}.

Lemma nac_calls_app (t1 t2 : list event) :
  nac_calls (t1 ++ t2) = nac_calls t1 ++ nac_calls t2.
Proof.
  induction t1 as [|e t1 IH]; simpl; [reflexivity|].
  destruct e; simpl; rewrite IH; reflexivity.
Qed.

Lemma nac_calls_resolution a : nac_calls (resolution_calls a) = [].
Proof.
  unfold resolution_calls.
  destruct (Args.phono3py_yaml a); [reflexivity|].
  destruct (Args.phonon_supercell_matrix a); [|reflexivity].
  destruct (guard_fails a); reflexivity.
Qed.

(** The calls of a returning run after the NAC helper. *)
Lemma calls_after_tail a kw :
  exists rest,
    calls_after a kw
    = EvGetUnits (Args.calculator a)
      :: EvInit kw
      :: EvGetNacParams (primitive (Phono3py_init kw)) (nac_params_given a)
           (Args.born_filename a) (Args.is_nac a)
           (Units.nac_factor
              (get_default_physical_units (Args.calculator a)))
      :: rest
    /\ nac_calls rest = [] /\ inits rest = [].
Proof.
  unfold calls_after. eexists. split; [reflexivity|].
  destruct (hdf5_source "fc3.hdf5" _ _), (hdf5_source "fc2.hdf5" _ _),
    (Args.mesh a); split; reflexivity.
Qed.

(** X9: every run of [load] that returns makes three calls in a row: the
    units of the calculator are looked up, the object is constructed, and
    the NAC helper is called on the primitive cell of the fresh object with
    the 'nac_factor' of those units.  The helper is called exactly once,
    also when [mesh] is None or is_nac is False, and the [factor] argument
    does not replace its NAC factor. *)
Theorem X9_units_constructor_nac_helper :
  forall (a : Args.t) (ph : Phono3py),
    outcome (load a) = inr ph ->
    exists kw before after,
      trace (load a)
      = before
        ++ EvGetUnits (Args.calculator a)
           :: EvInit kw
           :: EvGetNacParams (primitive (Phono3py_init kw))
                (nac_params_given a) (Args.born_filename a) (Args.is_nac a)
                (Units.nac_factor
                   (get_default_physical_units (Args.calculator a)))
           :: after /\
      nac_calls before = [] /\ nac_calls after = [] /\
      inits before = [] /\ inits after = [].
Proof.
  intros a ph Hret.
  destruct (load_returns a ph Hret) as (_ & Ht & _).
  destruct (calls_after_tail a (resolved_kwargs a))
    as (rest & Hrest & Hn & Hi).
  exists (resolved_kwargs a), (resolution_calls a), rest.
  rewrite Ht, Hrest.
  split; [reflexivity|].
  split; [apply nac_calls_resolution|].
  split; [exact Hn|].
  split; [apply inits_resolution_calls | exact Hi].
Qed.

(** X10: when [mesh] is given, [set_phph_interaction] is the last call of
    the run.  It is made on the constructed object after the force
    constants found were assigned, with what the NAC helper returned and
    the frequency_scale_factor argument, and its result is what [load]
    returns. *)
Theorem X10_interaction_is_the_last_call :
  forall (a : Args.t) (ph : Phono3py) (mesh : list Z),
    Args.mesh a = Some mesh ->
    outcome (load a) = inr ph ->
    exists kw t,
      let n :=
        get_nac_params (primitive (Phono3py_init kw)) (nac_params_given a)
          (Args.born_filename a) (Args.is_nac a)
          (Units.nac_factor
             (get_default_physical_units (Args.calculator a))) in
      trace (load a)
      = t ++ [EvSetPhph n (Args.frequency_scale_factor a)] /\
      inits t = [kw] /\
      (forall e, In e t -> match e with EvSetPhph _ _ => False | _ => True end)
      /\
      ph = set_phph_interaction (apply_setters t (Phono3py_init kw)) n
             (Args.frequency_scale_factor a).
Proof.
  intros a ph mesh Hmesh Hret.
  destruct (load_returns a ph Hret) as (_ & Ht & Hph).
  set (kw := resolved_kwargs a) in *.
  set (fc := fc3_calls (p2s_map (primitive (Phono3py_init kw)))
               (hdf5_source "fc3.hdf5" (Args.fc3_filename a)
                  (Args.forces_fc3_filename a))
             ++ fc2_calls (p2s_map (primitive (Phono3py_init kw)))
                  (hdf5_source "fc2.hdf5" (Args.fc2_filename a)
                     (Args.forces_fc2_filename a))).
  set (head :=
         [EvGetUnits (Args.calculator a); EvInit kw;
          EvGetNacParams (primitive (Phono3py_init kw)) (nac_params_given a)
            (Args.born_filename a) (Args.is_nac a)
            (Units.nac_factor
               (get_default_physical_units (Args.calculator a)))]).
  assert (Hca : calls_after a kw
                = (head ++ fc)
                  ++ [EvSetPhph (resolved_nac a kw)
                        (Args.frequency_scale_factor a)]).
  { unfold calls_after. rewrite Hmesh. fold fc. fold head.
    rewrite app_assoc. reflexivity. }
  exists kw, (resolution_calls a ++ head ++ fc).
  cbv zeta. fold (resolved_nac a kw).
  split; [|split; [|split]].
  - rewrite Ht, Hca, !app_assoc. reflexivity.
  - rewrite !inits_app, inits_resolution_calls. subst fc.
    rewrite inits_app, inits_fc3_calls, inits_fc2_calls. reflexivity.
  - intros e He. apply in_app_or in He. destruct He as [He|He].
    + apply In_resolution_calls in He. destruct e; auto.
    + apply in_app_or in He. destruct He as [He|He].
      * subst head. cbn [In] in He.
        destruct He as [<-|[<-|[<-|[]]]]; exact I.
      * subst fc. apply in_app_or in He. destruct He as [He|He].
        -- apply In_fc3_calls in He. destruct He as [_ He].
           destruct e; auto.
        -- apply In_fc2_calls in He. destruct He as [_ He].
           destruct e; auto.
  - rewrite Hph, Hca, !apply_setters_app.
    assert (Hres : forall q,
              apply_setters (resolution_calls a) q = q).
    { intros q. unfold resolution_calls.
      destruct (Args.phono3py_yaml a); [reflexivity|].
      destruct (Args.phonon_supercell_matrix a); [|reflexivity].
      destruct (guard_fails a); reflexivity. }
    rewrite Hres. reflexivity.
Qed.

(** X11: without a phono3py.yaml, the constructor of a returning run gets
    as cell, supercell matrix and primitive matrix exactly the triple the
    cell helper returned for the arguments of lines 185-192, so the
    supercell_matrix and primitive_matrix arguments reach it only through
    the helper; and it gets as phonon supercell matrix what
    [get_supercell_matrix] makes of the argument, or None when the
    argument is None. *)
Theorem X11_arguments_branch_goes_through_the_helpers :
  forall (a : Args.t) (ph : Phono3py),
    Args.phono3py_yaml a = None ->
    outcome (load a) = inr ph ->
    exists kw,
      inits (trace (load a)) = [kw] /\
      (Init.unitcell kw, Init.supercell_matrix kw, Init.primitive_matrix kw)
      = get_cell_settings (cell_settings_kwargs a) /\
      Init.phonon_supercell_matrix kw
      = match Args.phonon_supercell_matrix a with
        | Some m => get_supercell_matrix m
        | None => None
        end.
Proof.
  intros a ph Hy Hret.
  destruct (load_returns a ph Hret) as (Hg & _ & _).
  exists (resolved_kwargs a). rewrite inits_load, Hg.
  split; [reflexivity|].
  unfold resolved_kwargs. rewrite Hy. unfold args_kwargs.
  destruct (get_cell_settings (cell_settings_kwargs a))
    as [[cell smat] pmat].
  split; reflexivity.
Qed.

(** X12: [mesh], [symprec], [is_symmetry], [is_mesh_symmetry],
    [calculator] and [log_level] reach the constructor as they were given,
    with or without a phono3py.yaml. *)
Theorem X12_options_reach_the_constructor :
  forall (a : Args.t) (ph : Phono3py),
    outcome (load a) = inr ph ->
    exists kw,
      inits (trace (load a)) = [kw] /\
      Init.mesh kw = Args.mesh a /\
      Init.symprec kw = Args.symprec a /\
      Init.is_symmetry kw = Args.is_symmetry a /\
      Init.is_mesh_symmetry kw = Args.is_mesh_symmetry a /\
      Init.calculator kw = Args.calculator a /\
      Init.log_level kw = Args.log_level a.
Proof.
  intros a ph Hret.
  destruct (load_returns a ph Hret) as (Hg & _ & _).
  exists (resolved_kwargs a). rewrite inits_load, Hg.
  split; [reflexivity|].
  unfold resolved_kwargs, yaml_kwargs, args_kwargs.
  destruct (Args.phono3py_yaml a);
    [|destruct (get_cell_settings _) as [[cell smat] pmat]];
    repeat split; reflexivity.
Qed.

(** X13: [get_supercell_matrix] is called on [m] exactly when no
    phono3py.yaml is named, phonon_supercell_matrix is [m], and unitcell or
    unitcell_filename is given.  With a phono3py.yaml the phonon supercell
    matrix of the file goes to the constructor without passing through
    it. *)
Theorem X13_get_supercell_matrix_called_iff :
  forall (a : Args.t) (m : array_like),
    In (EvGetSupercellMatrix m) (trace (load a))
    <-> Args.phono3py_yaml a = None /\
        Args.phonon_supercell_matrix a = Some m /\
        (Args.unitcell a <> None \/ Args.unitcell_filename a <> None).
Proof.
  intros a m. rewrite load_eq.
  assert (Hca : forall kw, ~ In (EvGetSupercellMatrix m) (calls_after a kw)).
  { intros kw Hin. exact (In_calls_after a kw _ Hin). }
  assert (Hres : In (EvGetSupercellMatrix m) (resolution_calls a)
                 <-> Args.phono3py_yaml a = None /\
                     Args.phonon_supercell_matrix a = Some m /\
                     (Args.unitcell a <> None
                      \/ Args.unitcell_filename a <> None)).
  { unfold resolution_calls, guard_fails.
    destruct (Args.phono3py_yaml a) as [f|]; cbn [is_None andb negb In].
    - split; [intros [H|[]]; discriminate H | intros [H _]; discriminate H].
    - destruct (Args.phonon_supercell_matrix a) as [m'|];
        cbn [is_None andb negb In].
      + destruct (Args.unitcell a) as [u|],
          (Args.unitcell_filename a) as [uf|]; cbn [is_None andb In];
          split;
          try (intros [H|[H|[]]]; try discriminate H;
               injection H as ->;
               repeat split; solve [left; discriminate | right; discriminate]);
          try (intros (_ & H & _); injection H as ->;
               right; left; reflexivity).
        * intros [H|[]]. discriminate H.
        * intros (_ & _ & [H|H]); contradiction H; reflexivity.
      + split; [intros [H|[]]; discriminate H|].
        intros (_ & H & _). discriminate H. }
  destruct (raises a); unfold trace; cbn [fst].
  - exact Hres.
  - rewrite <- Hres. split.
    + intros Hin. apply in_app_or in Hin. destruct Hin as [Hin|Hin];
        [exact Hin | destruct (Hca _ Hin)].
    + intros Hin. apply in_or_app; left. exact Hin.
Qed.

End Runs.

(** ** The further properties on the small instance *)

Lemma X1_witness :
  @isfile Toy.D Toy.C "fc3.hdf5" = true /\
  forall e,
    In e (trace (@_set_force_constants Toy.D Toy.C Toy.fresh None None None
                   (Some "FORCES_FC3") None None)) ->
    match e with
    | EvReadFc3 _ _ | EvSetFc3 _ => False
    | _ => True
    end.
Proof.
  split; [reflexivity|].
  exact (proj1 (@X1_forces_name_shadows_default_hdf5 Toy.D Toy.C Toy.fresh
                  None None "FORCES_FC3") None None).
Defined.

Lemma X2_witness :
  @isfile Toy.D Toy.C "fc3.hdf5" = true /\
  In (@EvReadFc3 Toy.D "fc3.hdf5" 5%nat)
     (trace (@_set_force_constants Toy.D Toy.C Toy.fresh None None None
               None None None)).
Proof.
  split; [reflexivity|].
  apply (proj1 (@X2_default_hdf5_read_iff_present Toy.D Toy.C Toy.fresh
                  None None) None None).
  reflexivity.
Defined.

Lemma X3_witness :
  In (@EvReadFc2 Toy.D "fc2.hdf5" 5%nat)
     (trace (@_set_force_constants Toy.D Toy.C Toy.fresh None None
               (Some "fc2.hdf5") None None None)) /\
  5%nat = Toy.cell Toy.fresh.
Proof.
  assert (Hin : In (@EvReadFc2 Toy.D "fc2.hdf5" 5%nat)
                   (trace (@_set_force_constants Toy.D Toy.C Toy.fresh
                             None None (Some "fc2.hdf5") None None None))).
  { vm_compute. right; right; left; reflexivity. }
  split; [exact Hin|].
  exact (@X3_readers_get_the_initial_p2s_map Toy.D Toy.C Toy.fresh
           None None (Some "fc2.hdf5") None None None "fc2.hdf5" 5%nat
           (or_intror Hin)).
Defined.

Lemma X4_witness :
  Toy.other_directory "FORCES_FC3" <> @isfile Toy.D Toy.C "FORCES_FC3" /\
  @load Toy.D (@with_isfile Toy.D Toy.C Toy.other_directory) Toy.from_cell
  = @load Toy.D Toy.C Toy.from_cell.
Proof.
  split; [discriminate|].
  apply (@X4_only_the_default_hdf5_files_matter Toy.D Toy.C
           Toy.other_directory Toy.from_cell); reflexivity.
Defined.

Lemma X5_witness :
  @load Toy.D Toy.C
    (with_forces_inputs Toy.from_cell (Some "FORCES_FC3") None None)
  = @load Toy.D Toy.C
      (with_forces_inputs Toy.from_cell (Some "elsewhere/FORCES_FC3") None
         (Some "alm")).
Proof.
  apply (@X5_forces_names_and_fc_calculator_unused Toy.D Toy.C
           Toy.from_cell); reflexivity.
Defined.

Lemma X7_witness :
  Args.phono3py_yaml Toy.from_yaml = Some "phono3py.yaml" /\
  @load Toy.D Toy.C
    (with_cell_inputs Toy.from_yaml None (Some (Shape3 [2; 2; 2]%Z))
       None (Some 6%nat) None None (Some "SPOSCAR"))
  = @load Toy.D Toy.C Toy.from_yaml.
Proof.
  split; [reflexivity|].
  apply (@X7_yaml_supersedes_cell_arguments Toy.D Toy.C Toy.from_yaml
           "phono3py.yaml"). reflexivity.
Defined.

Lemma X8_witness :
  @load Toy.D Toy.C (with_primitive_matrix Toy.from_yaml None)
  = @load Toy.D Toy.C
      (with_primitive_matrix Toy.from_yaml (Some (@PStr Toy.D "F"))).
Proof.
  apply (@X8_yaml_ignores_primitive_matrix_unless_auto Toy.D Toy.C
           Toy.from_yaml "phono3py.yaml"); reflexivity.
Defined.

Lemma X9_witness :
  outcome (@load Toy.D Toy.C Toy.without_mesh)
  = inr Toy.loaded_without_mesh /\
  exists kw before after,
    trace (@load Toy.D Toy.C Toy.without_mesh)
    = before
      ++ EvGetUnits None
         :: EvInit kw
         :: @EvGetNacParams Toy.D (Toy.cell (Toy.init kw)) None None true
              14%nat
         :: after.
Proof.
  split; [reflexivity|].
  destruct (@X9_units_constructor_nac_helper Toy.D Toy.C Toy.without_mesh
              Toy.loaded_without_mesh eq_refl)
    as (kw & before & after & Ht & _).
  exists kw, before, after. exact Ht.
Defined.

Lemma X10_witness :
  Args.mesh Toy.from_cell = Some [2; 2; 2]%Z /\
  outcome (@load Toy.D Toy.C Toy.from_cell) = inr Toy.loaded_from_cell /\
  exists kw t,
    trace (@load Toy.D Toy.C Toy.from_cell)
    = t ++ [@EvSetPhph Toy.D
              (Toy.nac_helper (Toy.cell (Toy.init kw)) None None true 14%nat)
              None] /\
    inits t = [kw].
Proof.
  split; [reflexivity|]. split; [reflexivity|].
  destruct (@X10_interaction_is_the_last_call Toy.D Toy.C Toy.from_cell
              Toy.loaded_from_cell [2; 2; 2]%Z eq_refl eq_refl)
    as (kw & t & Ht & Hi & _).
  exists kw, t. split; [exact Ht | exact Hi].
Defined.

Lemma X11_witness :
  Args.phono3py_yaml Toy.from_cell = None /\
  outcome (@load Toy.D Toy.C Toy.from_cell) = inr Toy.loaded_from_cell /\
  exists kw,
    inits (trace (@load Toy.D Toy.C Toy.from_cell)) = [kw] /\
    (Init.unitcell kw, Init.supercell_matrix kw, Init.primitive_matrix kw)
    = Toy.cell_settings (@cell_settings_kwargs Toy.D Toy.from_cell).
Proof.
  split; [reflexivity|]. split; [reflexivity|].
  destruct (@X11_arguments_branch_goes_through_the_helpers Toy.D Toy.C
              Toy.from_cell Toy.loaded_from_cell eq_refl eq_refl)
    as (kw & Hi & Hk & _).
  exists kw. split; [exact Hi | exact Hk].
Defined.

Lemma X12_witness :
  outcome (@load Toy.D Toy.C Toy.from_yaml) = inr Toy.loaded_from_yaml /\
  exists kw,
    inits (trace (@load Toy.D Toy.C Toy.from_yaml)) = [kw] /\
    Init.mesh kw = Some [2; 2; 2]%Z.
Proof.
  split; [reflexivity|].
  destruct (@X12_options_reach_the_constructor Toy.D Toy.C Toy.from_yaml
              Toy.loaded_from_yaml eq_refl)
    as (kw & Hi & Hm & _).
  exists kw. split; [exact Hi | exact Hm].
Defined.

Lemma X13_witness :
  In (@EvGetSupercellMatrix Toy.D (Shape3 [2; 2; 2]%Z))
     (trace (@load Toy.D Toy.C
               (Toy.args None (Some (Shape3 [2; 2; 2]%Z)) None
                  (Some 5%nat) None))).
Proof.
  apply (@X13_get_supercell_matrix_called_iff Toy.D Toy.C).
  split; [reflexivity|]. split; [reflexivity|].
  left. simpl; discriminate.
Defined.
